(** * cdown: fetching verified contract sources, in Rocq

    A shallow embedding of [main.py]: the bundle parser
    ([is_single_file_contract], [_parse_source_code_object],
    [_sources_to_map]), the metadata filter ([filter_metadata]), the
    source writer ([write_sources]), the fetch client ([fetch_source])
    and the two downloaders.

    Conventions of the embedding.
    - A Python [str] is a [string]; its characters are the code points
      below 256.  [isspace] and [lower_char] are Python's tables on that
      range.
    - Values that come out of [json.loads] are the inductive [json]; a
      Python [dict] is kept as its item list in insertion order.  JSON
      numbers are Python ints: the floats that [json.loads] builds for
      literals with a fraction or an exponent are outside [json].
    - A [pathlib.Path] is the list of the operands of [/], base first.
    - The libraries the program calls ([json.loads], [json.dumps],
      [requests.get], [repr]) are variables of the section [Program].
      A call of [json.loads] returns a value, raises its decode error,
      or raises another exception, which the program does not catch.
    - Output is a trace of [event]s; a raised exception keeps the events
      emitted before it. *)

From stdpp Require Import gmap strings list pretty.
From Stdlib Require Import ZArith Ascii String.

Open Scope string_scope.
Open Scope list_scope.
Set Warnings "-register-all,-clear-no-such-hyp".

(** ** Python strings *)

(** [str.isspace] for one character. *)
Definition isspace (c : ascii) : bool :=
  let n := nat_of_ascii c in
  (((9 <=? n) && (n <=? 13)) || ((28 <=? n) && (n <=? 32))
   || (n =? 133) || (n =? 160))%nat.

(** [s.lstrip()] *)
Fixpoint lstrip (s : string) : string :=
  match s with
  | String c r => if isspace c then lstrip r else s
  | EmptyString => EmptyString
  end.

(** [s.rstrip()] *)
Fixpoint rstrip (s : string) : string :=
  match s with
  | String c r =>
      match rstrip r with
      | EmptyString => if isspace c then EmptyString else String c EmptyString
      | r' => String c r'
      end
  | EmptyString => EmptyString
  end.

(** [s.strip()] *)
Definition strip (s : string) : string := rstrip (lstrip s).

(** [s.startswith(p)] and [s.endswith(p)] *)
Definition startswith (s p : string) : bool := String.prefix p s.
Fixpoint endswith (s p : string) : bool :=
  String.eqb s p
  || match s with
     | String _ r => endswith r p
     | EmptyString => false
     end.

(** [s[1:-1]] *)
Definition slice_1_m1 (s : string) : string :=
  String.substring 1 (String.length s - 2) s.

(** [str.lower] for one character. *)
Definition lower_char (c : ascii) : ascii :=
  let n := nat_of_ascii c in
  if (((65 <=? n) && (n <=? 90))
      || ((192 <=? n) && (n <=? 222) && negb (n =? 215)))%nat
  then ascii_of_nat (n + 32) else c.

(** [s.lower()] *)
Fixpoint lower (s : string) : string :=
  match s with
  | String c r => String (lower_char c) (lower r)
  | EmptyString => EmptyString
  end.

(** ** JSON values and Python dictionaries *)

Inductive json : Type :=
| JNull
| JBool (b : bool)
| JInt (n : Z)
| JStr (s : string)
| JList (l : list json)
| JDict (kv : list (string * json)).

(** [bool(v)] *)
Definition truthy (v : json) : bool :=
  match v with
  | JNull => false
  | JBool b => b
  | JInt n => negb (n =? 0)%Z
  | JStr s => negb (String.eqb s "")
  | JList l => match l with [] => false | _ => true end
  | JDict kv => match kv with [] => false | _ => true end
  end.

(** [a or b]; the right operand is only used when [a] is falsy. *)
Definition py_or (a b : json) : json := if truthy a then a else b.

(** [k in d] and [d.get(k)] on the items of a dict with [str] keys. *)
Fixpoint dict_get (kv : list (string * json)) (k : string) : option json :=
  match kv with
  | [] => None
  | (k', v) :: rest => if String.eqb k' k then Some v else dict_get rest k
  end.

(** [d[k] = v] on the items of a dict with [str] keys: an existing key
    keeps its place. *)
Fixpoint dict_set (kv : list (string * json)) (k : string) (v : json)
  : list (string * json) :=
  match kv with
  | [] => [(k, v)]
  | (k', v') :: rest =>
      if String.eqb k' k then (k', v) :: rest else (k', v') :: dict_set rest k v
  end.

(** ** Exceptions *)

(** The built-in exceptions that ill-typed data raises, and those that
    [json.loads] can leave with besides its own decode error. *)
Inductive py_exn : Type :=
| AttributeError | TypeError | KeyError | ValueError | IndexError
| RecursionError.

(** One constructor for each [raise] of [main.py]. *)
Inductive error : Type :=
| ConfigError                                  (* ValueError("API key not set at top of file") *)
| TransportError (e : string)                  (* RuntimeError(f"HTTP request failed: {e}") *)
| BadResponseBody                              (* resp.json() raised *)
| RemoteError (address : string) (result : json) (* RuntimeError(f"Etherscan error for ...") *)
| NoSourceError                                (* RuntimeError("Contract is not verified or has no source") *)
| BundleDecodeError                            (* RuntimeError("Could not decode SourceCode JSON bundle") *)
| BundleShapeError                             (* RuntimeError("Unexpected JSON structure inside SourceCode bundle") *)
| Builtin (e : py_exn).

Inductive res (A : Type) : Type :=
| Ok (a : A)
| Raise (e : error).
Arguments Ok {A} a.
Arguments Raise {A} e.

#[global] Instance res_ret : MRet res := λ A a, Ok a.
#[global] Instance res_bind : MBind res := λ A B f m,
  match m with
  | Ok a => f a
  | Raise e => Raise e
  end.

(** ** Paths, events and the effect monad *)

Definition path : Type := list string.

(** [p / name] *)
Definition pjoin (p : path) (name : string) : path := p ++ [name].

Inductive event : Type :=
| HttpGet (url : string)                 (* requests.get(url, timeout=15) *)
| MkdirParents (p : path)                (* p.parent.mkdir(parents=True, exist_ok=True) *)
| WriteText (p : path) (content : string) (* p.write_text(content, encoding="utf-8") *)
| Shown (p : path)                       (* print(f"[+] {shown}") *)
| Print (line : string).                 (* the other print calls *)

Definition trace : Type := list event.

(** A computation gives its result, or the exception it raised, and the
    events it emitted up to there. *)
Definition M (A : Type) : Type := (res A * trace)%type.

#[global] Instance M_ret : MRet M := λ A a, (Ok a, []).
#[global] Instance M_bind : MBind M := λ A B f m,
  match m with
  | (Ok a, evs) => let '(r, evs') := f a in (r, evs ++ evs')
  | (Raise e, evs) => (Raise e, evs)
  end.

Definition emit (e : event) : M unit := (Ok tt, [e]).
Definition raise {A : Type} (e : error) : M A := (Raise e, []).
Definition lift {A : Type} (r : res A) : M A := (r, []).

(** ** Dynamic typing *)

(** [d.get(k, dflt)]: only a dict has [get]. *)
Definition py_get (d : json) (k : string) (dflt : json) : res json :=
  match d with
  | JDict kv => Ok (default dflt (dict_get kv k))
  | _ => Raise (Builtin AttributeError)
  end.

(** [d[k]] on a value known to be indexed by a [str]. *)
Definition py_getitem (d : json) (k : string) : res json :=
  match d with
  | JDict kv =>
      match dict_get kv k with
      | Some v => Ok v
      | None => Raise (Builtin KeyError)
      end
  | _ => Raise (Builtin TypeError)
  end.

(** [x[0]] *)
Definition py_getitem0 (x : json) : res json :=
  match x with
  | JList (v :: _) => Ok v
  | JList [] => Raise (Builtin IndexError)
  | JStr (String c _) => Ok (JStr (String c EmptyString))
  | JStr EmptyString => Raise (Builtin IndexError)
  | JDict _ => Raise (Builtin KeyError)
  | _ => Raise (Builtin TypeError)
  end.

(** [x == s] for a [str] literal [s]. *)
Definition py_eq_str (x : json) (s : string) : bool :=
  match x with
  | JStr t => String.eqb t s
  | _ => false
  end.

(** [x.lstrip()], [x.strip()]: the methods of [str] that the parser calls
    on the source blob. *)
Definition py_as_str (x : json) : res string :=
  match x with
  | JStr s => Ok s
  | _ => Raise (Builtin AttributeError)
  end.

(** [x.lower()]: only a [str] has [lower]. *)
Definition py_lower (x : json) : res string :=
  match x with
  | JStr s => Ok (lower s)
  | _ => Raise (Builtin AttributeError)
  end.

(** [p / x]: the operand of [/] must be a [str]. *)
Definition py_pjoin (p : path) (x : json) : res path :=
  match x with
  | JStr s => Ok (pjoin p s)
  | _ => Raise (Builtin TypeError)
  end.

(** Keys of a dict built from arbitrary hashable values: [True == 1] and
    [False == 0] are the same key as the int. *)
Definition key_num (v : json) : option Z :=
  match v with
  | JBool b => Some (if b then 1 else 0)%Z
  | JInt n => Some n
  | _ => None
  end.

Definition key_eqb (a b : json) : bool :=
  match a, b with
  | JNull, JNull => true
  | JStr s, JStr t => String.eqb s t
  | _, _ =>
      match key_num a, key_num b with
      | Some m, Some n => (m =? n)%Z
      | _, _ => false
      end
  end.

Definition hashable (v : json) : bool :=
  match v with
  | JList _ | JDict _ => false
  | _ => true
  end.

(** [out[name] = value] on the items of a dict keyed by hashable values. *)
Fixpoint items_set (out : list (json * json)) (name value : json)
  : list (json * json) :=
  match out with
  | [] => [(name, value)]
  | (k, v) :: rest =>
      if key_eqb k name then (k, value) :: rest
      else (k, v) :: items_set rest name value
  end.

Definition py_setitem (out : list (json * json)) (name value : json)
  : res (list (json * json)) :=
  if hashable name then Ok (items_set out name value)
  else Raise (Builtin TypeError).

(** [name, meta = e]: unpacking an element into exactly two. *)
Definition unpack_pair (e : json) : res (json * json) :=
  match e with
  | JList [a; b] => Ok (a, b)
  | JList _ => Raise (Builtin ValueError)
  | JStr (String a (String b EmptyString)) =>
      Ok (JStr (String a EmptyString), JStr (String b EmptyString))
  | JStr _ => Raise (Builtin ValueError)
  | JDict [(a, _); (b, _)] => Ok (JStr a, JStr b)
  | JDict _ => Raise (Builtin ValueError)
  | _ => Raise (Builtin TypeError)
  end.

(** ** The program *)

(** What [requests.get(url, timeout=15)], [raise_for_status] and
    [resp.json()] give for a URL. *)
Inductive http_reply : Type :=
| RequestException (e : string)   (* the request or its status check raised; [e] is [str] of the exception *)
| BodyNotJson                     (* [resp.json()] raised *)
| Body (data : json).             (* [resp.json()] *)

(** What [json.loads(txt)] does: it returns the decoded value, raises
    [json.JSONDecodeError], or raises another exception ([ValueError] for
    an integer of more than 4300 digits, [RecursionError] for a nesting
    that is too deep). *)
Inductive loads_result : Type :=
| Decoded (v : json)
| JSONDecodeError
| LoadsRaises (e : py_exn).

Section Program.

(** [json.loads] *)
Variable json_loads : string → loads_result.
(** [json.dumps(v, indent=2)] *)
Variable json_dumps : json → string.
(** The remote API. *)
Variable requests_get : string → http_reply.
(** [repr] of a value that is not a [str]. *)
Variable repr : json → string.

(** [f"{v}"] *)
Definition py_format (v : json) : string :=
  match v with
  | JStr s => s
  | _ => repr v
  end.

Definition CRLF : string := String "013"%char (String "010"%char EmptyString).

Definition is_single_file_contract (src : string) : bool :=
  let txt := lstrip src in
  (startswith txt "pragma" || startswith txt "//" || startswith txt "/*")
  || startswith txt CRLF.

Definition _double_curly_wrapped (txt : string) : bool :=
  startswith (lstrip txt) "{{" && endswith (rstrip txt) "}}".

(** Only [json.JSONDecodeError] is caught; Python's [None] is also what
    [json.loads("null")] returns. *)
Definition _json_or_none (txt : string) : res json :=
  match json_loads txt with
  | Decoded v => Ok v
  | JSONDecodeError => Ok JNull
  | LoadsRaises e => Raise (Builtin e)
  end.

Definition _parse_source_code_object (blob : string) : res json :=
  let txt := strip blob in
  let txt := if _double_curly_wrapped txt then strip (slice_1_m1 txt) else txt in
  first ← _json_or_none txt;
  parsed ← (if truthy first then Ok first else _json_or_none (slice_1_m1 txt));
  if negb (truthy parsed) then Raise BundleDecodeError
  else
    match parsed with
    | JDict kv =>
        match dict_get kv "sources" with
        | Some sources => Ok sources
        | None => Ok parsed
        end
    | _ => Ok parsed
    end.

(** The [list] branch of [_sources_to_map]: the loop over the pairs. *)
Fixpoint pairs_to_map (parsed : list json) (out : list (json * json))
  : res (list (json * json)) :=
  match parsed with
  | [] => Ok out
  | e :: rest =>
      '(name, meta) ← unpack_pair e;
      value ← match meta with
              | JDict _ => py_getitem meta "content"
              | _ => Ok meta
              end;
      out' ← py_setitem out name value;
      pairs_to_map rest out'
  end.

Definition _sources_to_map (parsed : json) : res (list (json * json)) :=
  match parsed with
  | JDict kv =>
      Ok (map (λ '(name, meta),
                 (JStr name,
                  match meta with
                  | JDict m => default meta (dict_get m "content")
                  | _ => meta
                  end)) kv)
  | JList l => pairs_to_map l []
  | _ => Raise BundleShapeError
  end.

Definition _write_file (p : path) (content : json) : M unit :=
  emit (MkdirParents p);;
  match content with
  | JStr s => emit (WriteText p s);; emit (Shown p)
  | _ => raise (Builtin TypeError)
  end.

Definition _API_URL_TMPL (chainid : Z) (address apikey : string) : string :=
  "https://api.etherscan.io/v2/api"
  +:+ "?chainid=" +:+ pretty chainid +:+ "&module=contract&action=getsourcecode"
  +:+ "&address=" +:+ address +:+ "&apikey=" +:+ apikey.

Definition fetch_source (address : string) (chainid : Z) (apikey : string)
  : M json :=
  if negb (truthy (JStr apikey)) || String.eqb apikey "YOUR_ETHERSCAN_V2_API_KEY"
  then raise ConfigError
  else
    let url := _API_URL_TMPL chainid address apikey in
    emit (HttpGet url);;
    match requests_get url with
    | RequestException e => raise (TransportError e)
    | BodyNotJson => raise BadResponseBody
    | Body data =>
        status ← lift (py_get data "status" JNull);
        if negb (py_eq_str status "1")
        then
          r ← lift (py_get data "result" (JStr "unknown"));
          raise (RemoteError address r)
        else lift (r ← py_getitem data "result"; py_getitem0 r)
    end.

Definition filter_metadata (metadata : list (string * json))
    (include_keys exclude_keys : option (gset string))
  : list (string * json) :=
  match include_keys with
  | Some inc => filter (λ kv, kv.1 ∈ inc) metadata
  | None =>
      match exclude_keys with
      | Some exc => filter (λ kv, kv.1 ∉ exc) metadata
      | None => metadata
      end
  end.

(** The loop of [write_sources] over [enumerate(items, 1)]; [i] is the
    index of the first of [items]. *)
Fixpoint write_entries (outdir : path) (i : nat) (items : list (json * json))
  : M unit :=
  match items with
  | [] => mret tt
  | (name, code) :: rest =>
      p ← lift (py_pjoin outdir
                  (py_or name (JStr ("Contract_" +:+ pretty i +:+ ".sol"))));
      _write_file p code;;
      write_entries outdir (S i) rest
  end.

Definition write_sources (result : json) (outdir : path)
    (save_abi save_metadata : bool)
    (include_metadata_keys exclude_metadata_keys : option (gset string))
  : M unit :=
  src_blob ← lift (py_get result "SourceCode" (JStr ""));
  if negb (truthy src_blob) then raise NoSourceError
  else
    blob ← lift (py_as_str src_blob);
    (if is_single_file_contract blob
     then
       name ← lift (py_get result "ContractName" JNull);
       let fname := py_format (py_or name (JStr "Contract")) +:+ ".sol" in
       _write_file (pjoin outdir fname) src_blob
     else
       parsed ← lift (_parse_source_code_object blob);
       items ← lift (_sources_to_map parsed);
       write_entries outdir 1 items);;
    (if save_abi
     then
       abi ← lift (py_get result "ABI" (JStr ""));
       _write_file (pjoin outdir "abi.json") abi
     else mret tt);;
    (if save_metadata
     then
       match result with
       | JDict kv =>
           let filtered_metadata :=
             filter_metadata kv include_metadata_keys exclude_metadata_keys in
           _write_file (pjoin outdir "contract_metadata.json")
                       (JStr (json_dumps (JDict filtered_metadata)))
       | _ => raise (Builtin AttributeError)
       end
     else mret tt).

Definition download_contract_source (address : string) (chainid : Z)
    (outdir : path) (apikey : string) (save_abi save_metadata : bool)
    (include_metadata_keys exclude_metadata_keys : option (gset string))
  : M unit :=
  result ← fetch_source address chainid apikey;
  name ← lift (py_get result "ContractName" (JStr "Contract"));
  let address_folder := pjoin outdir (py_format name +:+ "-" +:+ lower address) in
  write_sources result address_folder save_abi save_metadata
                include_metadata_keys exclude_metadata_keys.

Definition ZERO_ADDRESS : string := "0x0000000000000000000000000000000000000000".

(** A call of [download_contract_source_recursive] either runs out of
    [fuel] (the model's bound on the depth of the recursion) or ends, by
    returning or by raising, with the [_visited] set as it leaves it and
    the events it emitted. *)
Inductive outcome : Type :=
| OutOfFuel
| Done (r : res unit) (visited : gset string) (evs : trace).

(** The events [evs] followed by what the call [o] does. *)
Definition after (evs : trace) (o : outcome) : outcome :=
  match o with
  | OutOfFuel => OutOfFuel
  | Done r visited evs' => Done r visited (evs ++ evs')
  end.

Fixpoint download_contract_source_recursive (fuel : nat)
    (address : string) (chainid : Z) (outdir : path) (apikey : string)
    (save_abi save_metadata : bool)
    (include_metadata_keys exclude_metadata_keys : option (gset string))
    (_visited : option (gset string)) : outcome :=
  match fuel with
  | O => OutOfFuel
  | S fuel =>
      let visited := default ∅ _visited in
      let address := lower address in
      if decide (address ∈ visited)
      then
        Done (Ok tt) visited
             [Print ("[!] Already downloaded " +:+ address
                     +:+ ", skipping to avoid cycle")]
      else
        let visited := visited ∪ {[address]} in
        let body : M (path * bool * string) :=
          emit (Print ("[=] Downloading contract " +:+ address
                       +:+ " (chain " +:+ pretty chainid +:+ ")"));;
          result ← fetch_source address chainid apikey;
          name ← lift (py_get result "ContractName" (JStr "Contract"));
          let base_dir :=
            pjoin outdir (py_format name +:+ "-" +:+ lower address) in
          write_sources result base_dir save_abi save_metadata
                        include_metadata_keys exclude_metadata_keys;;
          proxy ← lift (py_get result "Proxy" JNull);
          let is_proxy := py_eq_str proxy "1" in
          impl ← lift (py_get result "Implementation" (JStr ""));
          implementation ← lift (py_lower impl);
          mret (base_dir, is_proxy, implementation) in
        match body with
        | (Raise e, evs) => Done (Raise e) visited evs
        | (Ok (base_dir, is_proxy, implementation), evs) =>
            if is_proxy && truthy (JStr implementation)
               && negb (String.eqb implementation ZERO_ADDRESS)
            then
              let impl_dir :=
                pjoin base_dir ("implementation-" +:+ implementation) in
              after
                (evs ++ [Print ("[=] Detected proxy contract. Downloading implementation at "
                                +:+ implementation)])
                (download_contract_source_recursive fuel
                   implementation chainid impl_dir apikey save_abi save_metadata
                   include_metadata_keys exclude_metadata_keys (Some visited))
            else Done (Ok tt) visited evs
        end
  end.

End Program.

(** ** The command line *)

Module Cli.

(** [s.split(",")] *)
Fixpoint split_comma (s : string) : list string :=
  match s with
  | EmptyString => [EmptyString]
  | String c r =>
      if Ascii.eqb c ","%char then EmptyString :: split_comma r
      else
        match split_comma r with
        | piece :: pieces => String c piece :: pieces
        | [] => [String c EmptyString]
        end
  end.

(** [{k.strip() for k in s.split(",") if k.strip()}] *)
Definition key_set (s : string) : gset string :=
  list_to_set
    (map strip (filter (λ k, truthy (JStr (strip k)) = true) (split_comma s))).

(** The key set [_cli] builds from an option of the command line: nothing
    when the option is absent or its argument is empty. *)
Definition cli_keys (arg : option string) : option (gset string) :=
  match arg with
  | Some s => if truthy (JStr s) then Some (key_set s) else None
  | None => None
  end.

(** The namespace [_parse_args] returns; [argparse] itself is not part of
    the model. *)
Record Namespace : Type := {
  address : string;
  chainid : Z;
  outdir : string;
  recursive : bool;
  download_abi : bool;
  download_metadata : bool;
  include_metadata_keys : option string;
  exclude_metadata_keys : option string
}.

(** How [_cli] ends: it returns, or leaves through
    [sys.exit(f"[ERROR] {e}")] with the exception it caught, or the model
    runs out of fuel. *)
Inductive cli_outcome : Type :=
| CliOutOfFuel
| CliReturn (evs : trace)
| CliExit (e : error) (evs : trace).

Section Main.

Variable json_loads : string → loads_result.
Variable json_dumps : json → string.
Variable requests_get : string → http_reply.
Variable repr : json → string.
(** The constant at the top of [main.py] that the user is told to edit;
    the repository ships it as the empty string. *)
Variable API_KEY : string.

Definition _cli (fuel : nat) (args : Namespace) : cli_outcome :=
  let include_keys := cli_keys (include_metadata_keys args) in
  let exclude_keys := cli_keys (exclude_metadata_keys args) in
  if recursive args
  then
    match download_contract_source_recursive
            json_loads json_dumps requests_get repr fuel
            (address args) (chainid args) [outdir args] API_KEY
            (download_abi args) (download_metadata args)
            include_keys exclude_keys None with
    | OutOfFuel => CliOutOfFuel
    | Done (Ok _) _ evs => CliReturn evs
    | Done (Raise e) _ evs => CliExit e evs
    end
  else
    match download_contract_source
            json_loads json_dumps requests_get repr
            (address args) (chainid args) [outdir args] API_KEY
            (download_abi args) (download_metadata args)
            include_keys exclude_keys with
    | (Ok _, evs) => CliReturn evs
    | (Raise e, evs) => CliExit e evs
    end.

End Main.

Definition API_KEY_shipped : string := "".

End Cli.

(** ** A JSON reader for the closed examples

    [json_loads] follows the scanner of Python's [json] module on the
    part of JSON that [json] holds: objects, arrays, strings with the
    one-letter escapes, integers, [true], [false] and [null].  An integer
    of more than 4300 digits makes it leave with [ValueError], as the
    integer conversion of Python does.  A text with a [\u] escape, a
    fraction, an exponent, [NaN] or [Infinity] is outside that part and is
    answered with the decode error; so is, on the other side, a nesting so
    deep that the interpreter would give up with [RecursionError], which
    the reader decodes.  The theorems are stated for every decoder; this
    one only feeds the examples. *)
Module JsonText.

Definition json_ws (c : ascii) : bool :=
  (Ascii.eqb c " " || Ascii.eqb c "009" || Ascii.eqb c "010" || Ascii.eqb c "013")%char.

Fixpoint skip_ws (s : string) : string :=
  match s with
  | String c r => if json_ws c then skip_ws r else s
  | EmptyString => EmptyString
  end.

Definition unescape (c : ascii) : option ascii :=
  (if Ascii.eqb c "034" then Some "034"
   else if Ascii.eqb c "\" then Some "\"
   else if Ascii.eqb c "/" then Some "/"
   else if Ascii.eqb c "b" then Some "008"
   else if Ascii.eqb c "f" then Some "012"
   else if Ascii.eqb c "n" then Some "010"
   else if Ascii.eqb c "r" then Some "013"
   else if Ascii.eqb c "t" then Some "009"
   else None)%char.

(** The text after an opening quote: the decoded string and what follows
    the closing quote. *)
Fixpoint scan_string (s : string) : option (string * string) :=
  match s with
  | EmptyString => None
  | String c r =>
      if Ascii.eqb c "034"%char then Some (EmptyString, r)
      else if Ascii.eqb c "\"%char then
        match r with
        | String e r' =>
            match unescape e with
            | Some ch =>
                match scan_string r' with
                | Some (str, rest) => Some (String ch str, rest)
                | None => None
                end
            | None => None
            end
        | EmptyString => None
        end
      else if (nat_of_ascii c <? 32)%nat then None
      else
        match scan_string r with
        | Some (str, rest) => Some (String c str, rest)
        | None => None
        end
  end.

Definition digit (c : ascii) : option Z :=
  let n := nat_of_ascii c in
  if ((48 <=? n) && (n <=? 57))%nat then Some (Z.of_nat n - 48)%Z else None.

Fixpoint scan_digits (s : string) (acc : Z) : Z * string :=
  match s with
  | String c r =>
      match digit c with
      | Some d => scan_digits r (10 * acc + d)%Z
      | None => (acc, s)
      end
  | EmptyString => (acc, s)
  end.

Definition scan_nat (s : string) : option (Z * string) :=
  match s with
  | String c r =>
      match digit c with
      | Some 0%Z => Some (0%Z, r)
      | Some d => Some (scan_digits r d)
      | None => None
      end
  | EmptyString => None
  end.

(** The digits [scan_nat] takes, counted and skipped without their value. *)
Fixpoint count_digits (s : string) : nat :=
  match s with
  | String c r =>
      match digit c with
      | Some _ => S (count_digits r)
      | None => O
      end
  | EmptyString => O
  end.

Fixpoint skip_digits (s : string) : string :=
  match s with
  | String c r =>
      match digit c with
      | Some _ => skip_digits r
      | None => s
      end
  | EmptyString => EmptyString
  end.

Definition int_digits (s : string) : nat :=
  match s with
  | String c r =>
      match digit c with
      | Some 0%Z => 1
      | Some _ => S (count_digits r)
      | None => 0
      end
  | EmptyString => 0
  end.

Definition int_rest (s : string) : string :=
  match s with
  | String c r =>
      match digit c with
      | Some 0%Z => r
      | Some _ => skip_digits r
      | None => s
      end
  | EmptyString => EmptyString
  end.

Definition starts_fraction (s : string) : bool :=
  match s with
  | String c _ => (Ascii.eqb c "." || Ascii.eqb c "e" || Ascii.eqb c "E")%char
  | EmptyString => false
  end.

(** [sys.get_int_max_str_digits()] *)
Definition INT_MAX_STR_DIGITS : nat := 4300.

(** What a scanner gives: a value and the text after it, a syntax error,
    or the [ValueError] of an integer with too many digits. *)
Inductive scanned : Type :=
| Scan (v : json) (rest : string)
| Malformed
| TooManyDigits.

Definition scan_int (s : string) : scanned :=
  let '(neg, s1) :=
    match s with
    | String c r => if Ascii.eqb c "-"%char then (true, r) else (false, s)
    | EmptyString => (false, s)
    end in
  if starts_fraction (int_rest s1) then Malformed
  else if (INT_MAX_STR_DIGITS <? int_digits s1)%nat then TooManyDigits
  else
    match scan_nat s1 with
    | Some (n, rest) => Scan (JInt (if neg then - n else n)%Z) rest
    | None => Malformed
    end.

Definition scan_literal (s : string) : scanned :=
  if String.prefix "null" s then Scan JNull (String.substring 4 (String.length s - 4) s)
  else if String.prefix "true" s then Scan (JBool true) (String.substring 4 (String.length s - 4) s)
  else if String.prefix "false" s then Scan (JBool false) (String.substring 5 (String.length s - 5) s)
  else scan_int s.

Fixpoint scan_value (fuel : nat) (s : string) : scanned :=
  match fuel with
  | O => Malformed
  | S fuel =>
      match s with
      | EmptyString => Malformed
      | String c r =>
          if Ascii.eqb c "034"%char then
            match scan_string r with
            | Some (str, rest) => Scan (JStr str) rest
            | None => Malformed
            end
          else if Ascii.eqb c "{"%char then
            match skip_ws r with
            | String c' rest =>
                if Ascii.eqb c' "}"%char then Scan (JDict []) rest
                else scan_members fuel (String c' rest) []
            | EmptyString => Malformed
            end
          else if Ascii.eqb c "["%char then
            match skip_ws r with
            | String c' rest =>
                if Ascii.eqb c' "]"%char then Scan (JList []) rest
                else scan_elements fuel (String c' rest) []
            | EmptyString => Malformed
            end
          else scan_literal s
      end
  end
with scan_members (fuel : nat) (s : string) (acc : list (string * json))
  : scanned :=
  match fuel with
  | O => Malformed
  | S fuel =>
      match s with
      | String c r =>
          if Ascii.eqb c "034"%char then
            match scan_string r with
            | Some (key, r1) =>
                match skip_ws r1 with
                | String c1 r2 =>
                    if Ascii.eqb c1 ":"%char then
                      match scan_value fuel (skip_ws r2) with
                      | Scan v r3 =>
                          let acc := dict_set acc key v in
                          match skip_ws r3 with
                          | String c3 r4 =>
                              if Ascii.eqb c3 "}"%char then Scan (JDict acc) r4
                              else if Ascii.eqb c3 ","%char
                              then scan_members fuel (skip_ws r4) acc
                              else Malformed
                          | EmptyString => Malformed
                          end
                      | Malformed => Malformed
                      | TooManyDigits => TooManyDigits
                      end
                    else Malformed
                | EmptyString => Malformed
                end
            | None => Malformed
            end
          else Malformed
      | EmptyString => Malformed
      end
  end
with scan_elements (fuel : nat) (s : string) (acc : list json)
  : scanned :=
  match fuel with
  | O => Malformed
  | S fuel =>
      match scan_value fuel s with
      | Scan v r1 =>
          let acc := acc ++ [v] in
          match skip_ws r1 with
          | String c r2 =>
              if Ascii.eqb c "]"%char then Scan (JList acc) r2
              else if Ascii.eqb c ","%char
              then scan_elements fuel (skip_ws r2) acc
              else Malformed
          | EmptyString => Malformed
          end
      | Malformed => Malformed
      | TooManyDigits => TooManyDigits
      end
  end.

(** [json.loads] on the part of JSON described above. *)
Definition json_loads (s : string) : loads_result :=
  let s := skip_ws s in
  match scan_value (S (String.length s)) s with
  | Scan v rest =>
      match skip_ws rest with
      | EmptyString => Decoded v
      | _ => JSONDecodeError
      end
  | Malformed => JSONDecodeError
  | TooManyDigits => LoadsRaises ValueError
  end.

(** [json.dumps(v, indent=2)]: [ensure_ascii] escapes, [", "]-free item
    separator, [": "] between key and value. *)
Definition hex_digit (n : nat) : ascii :=
  match String.get n "0123456789abcdef" with
  | Some c => c
  | None => "0"%char
  end.

Definition escape_char (c : ascii) : string :=
  let n := nat_of_ascii c in
  (if Ascii.eqb c "034" then String "\" (String "034" EmptyString)
   else if Ascii.eqb c "\" then String "\" (String "\" EmptyString)
   else if Ascii.eqb c "008" then String "\" (String "b" EmptyString)
   else if Ascii.eqb c "012" then String "\" (String "f" EmptyString)
   else if Ascii.eqb c "010" then String "\" (String "n" EmptyString)
   else if Ascii.eqb c "013" then String "\" (String "r" EmptyString)
   else if Ascii.eqb c "009" then String "\" (String "t" EmptyString)
   else if ((32 <=? n) && (n <=? 126))%nat then String c EmptyString
   else String "\" (String "u" (String "0" (String "0"
          (String (hex_digit (n / 16)) (String (hex_digit (n mod 16)) EmptyString))))))%char.

Fixpoint escape (s : string) : string :=
  match s with
  | String c r => escape_char c +:+ escape r
  | EmptyString => EmptyString
  end.

Definition encode_str (s : string) : string :=
  String "034"%char (escape s +:+ String "034"%char EmptyString).

Fixpoint spaces (n : nat) : string :=
  match n with
  | O => EmptyString
  | S n => String " "%char (spaces n)
  end.

Definition newline_indent (level : nat) : string :=
  String "010"%char (spaces (2 * level)).

Fixpoint join (sep : string) (l : list string) : string :=
  match l with
  | [] => EmptyString
  | [x] => x
  | x :: rest => x +:+ sep +:+ join sep rest
  end.

Fixpoint encode (level : nat) (v : json) : string :=
  match v with
  | JNull => "null"
  | JBool b => if b then "true" else "false"
  | JInt n => pretty n
  | JStr s => encode_str s
  | JList [] => "[]"
  | JList l =>
      "[" +:+ newline_indent (S level)
      +:+ join ("," +:+ newline_indent (S level)) (map (encode (S level)) l)
      +:+ newline_indent level +:+ "]"
  | JDict [] => "{}"
  | JDict kv =>
      "{" +:+ newline_indent (S level)
      +:+ join ("," +:+ newline_indent (S level))
               (map (λ item, encode_str item.1 +:+ ": " +:+ encode (S level) item.2) kv)
      +:+ newline_indent level +:+ "}"
  end.

Definition json_encode (v : json) : string := encode 0 v.

(** The examples write JSON texts with ['] where JSON has the double
    quote; [dq] puts the double quotes back. *)
Fixpoint dq (s : string) : string :=
  match s with
  | String c r => String (if Ascii.eqb c "'"%char then "034"%char else c) (dq r)
  | EmptyString => EmptyString
  end.

End JsonText.


(** ** Vocabulary of the statements *)

(** What writing the text [content] to [p] emits. *)
Definition file_events (p : path) (content : string) : trace :=
  [MkdirParents p; WriteText p content; Shown p].

(** The name the specification gives to the [i]-th entry of a bundle:
    [None] is a missing name. *)
Definition entry_name (i : nat) (name : option string) : string :=
  match name with
  | Some s => if decide (s = "") then "Contract_" +:+ pretty i +:+ ".sol" else s
  | None => "Contract_" +:+ pretty i +:+ ".sol"
  end.

(** An entry of a bundle with a [str] or missing name and a [str] content,
    as the value it is in the program. *)
Definition bundle_item (item : option string * string) : json * json :=
  (from_option JStr JNull item.1, JStr item.2).

(** The end of [write_sources]: the two optional side files. *)
Definition side_files (json_dumps : json → string)
    (kv : list (string * json)) (outdir : path)
    (save_abi save_metadata : bool) (inc exc : option (gset string)) : M unit :=
  (if save_abi
   then
     abi ← lift (py_get (JDict kv) "ABI" (JStr ""));
     _write_file (pjoin outdir "abi.json") abi
   else mret tt);;
  (if save_metadata
   then
     _write_file (pjoin outdir "contract_metadata.json")
                 (JStr (json_dumps (JDict (filter_metadata kv inc exc))))
   else mret tt).

(** The text the two decode attempts are made on: the stripped blob, with
    one layer of braces removed when it is double-brace wrapped. *)
Definition bundle_text (blob : string) : string :=
  let txt := strip blob in
  if _double_curly_wrapped txt then strip (slice_1_m1 txt) else txt.

(** The root of the bundle in a decoded value. *)
Definition bundle_root (v : json) : json :=
  match v with
  | JDict kv => default v (dict_get kv "sources")
  | _ => v
  end.

(** A decode attempt that leaves the parser without a value to go on
    with: the decoder raises its decode error, or decodes to an empty
    value. *)
Definition attempt_empty (json_loads : string → loads_result) (txt : string)
  : Prop :=
  json_loads txt = JSONDecodeError
  ∨ ∃ v, json_loads txt = Decoded v ∧ truthy v = false.

(** The URLs requested in a trace, in order. *)
Definition fetches (evs : trace) : list string :=
  omap (λ e, match e with HttpGet url => Some url | _ => None end) evs.

(** An event that creates, writes or reports a file of the directory
    [dir]. *)
Definition file_event_in (dir : path) (e : event) : Prop :=
  match e with
  | MkdirParents p | WriteText p _ | Shown p => ∃ name, p = pjoin dir name
  | _ => False
  end.

(** The record [kv] designates [impl] as its implementation, in the words
    of the specification: the proxy flag is ["1"], the implementation
    field is present, not empty and not the zero address; [impl] is that
    field in lower case. *)
Definition proxy_target (kv : list (string * json)) (impl : string) : Prop :=
  dict_get kv "Proxy" = Some (JStr "1")
  ∧ ∃ s, dict_get kv "Implementation" = Some (JStr s)
         ∧ s ≠ "" ∧ lower s ≠ ZERO_ADDRESS ∧ impl = lower s.

(** The directory of the contract at the lower-case address [a] whose
    record is [kv]. *)
Definition contract_dir (repr : json → string) (outdir : path)
    (kv : list (string * json)) (a : string) : path :=
  pjoin outdir
        (py_format repr (default (JStr "Contract") (dict_get kv "ContractName"))
         +:+ "-" +:+ a).

(** Fetching the lower-case address [a] gives a record that designates
    [b]: an edge of the proxy graph. *)
Definition designates (requests_get : string → http_reply) (chainid : Z)
    (apikey : string) (a b : string) : Prop :=
  ∃ kv evs, fetch_source requests_get a chainid apikey = (Ok (JDict kv), evs)
            ∧ proxy_target kv b.

(** A finite proxy graph: a finite set of addresses that holds every
    address that one of its own designates. *)
Definition proxy_graph (requests_get : string → http_reply) (chainid : Z)
    (apikey : string) (U : gset string) : Prop :=
  ∀ a b, a ∈ U → designates requests_get chainid apikey a b → b ∈ U.

(** A text of blanks only. *)
Fixpoint isblank (s : string) : bool :=
  match s with
  | String c r => isspace c && isblank r
  | EmptyString => true
  end.

(** A text without comma. *)
Fixpoint comma_free (s : string) : bool :=
  match s with
  | String c r => negb (Ascii.eqb c ","%char) && comma_free r
  | EmptyString => true
  end.

(** [items[name]] on the items of a dict keyed by hashable values. *)
Fixpoint items_get (items : list (json * json)) (name : json) : option json :=
  match items with
  | [] => None
  | (k, v) :: rest => if key_eqb k name then Some v else items_get rest name
  end.

(** The content [_sources_to_map] takes from the value [meta] of an entry
    of the object form. *)
Definition content_of (meta : json) : json :=
  match meta with
  | JDict m => default meta (dict_get m "content")
  | _ => meta
  end.

(** The pair [[name, meta]] of the list form. *)
Definition pair_of (item : string * json) : json := JList [JStr item.1; item.2].

(** No name of [items] is the key of a later one. *)
Fixpoint names_distinct (items : list (json * json)) : Prop :=
  match items with
  | [] => True
  | (k, _) :: rest => (∀ k', k' ∈ rest.*1 → key_eqb k k' = false) ∧ names_distinct rest
  end.

(** An event that touches a path does so at or below [root]. *)
Definition event_under (root : path) (e : event) : Prop :=
  match e with
  | MkdirParents p | WriteText p _ | Shown p => root `prefix_of` p
  | _ => True
  end.

(** ** A sample world for the closed examples *)
Module Sample.
Import JsonText.

(** [repr] of a value from [json.loads]; exact when the strings inside
    hold no quote, backslash or unprintable character. *)
Fixpoint py_repr (v : json) : string :=
  match v with
  | JNull => "None"
  | JBool b => if b then "True" else "False"
  | JInt n => pretty n
  | JStr s => "'" +:+ s +:+ "'"
  | JList l => "[" +:+ join ", " (map py_repr l) +:+ "]"
  | JDict kv =>
      "{" +:+ join ", " (map (λ item, "'" +:+ item.1 +:+ "': " +:+ py_repr item.2) kv)
      +:+ "}"
  end.

Definition KEY : string := "0123456789ABCDEFGHIJKLMNOPQRSTUVWX".
Definition addrA : string := "0x5A3E6A77ba2f983eC0d371ea3B475F8Bc0811AD5".
Definition addrB : string := "0x1111111254EEB25477B68fb85Ed929f73A960582".

(** A proxy whose implementation is [addrB] ... *)
Definition recordA : list (string * json) :=
  [("SourceCode", JStr "pragma solidity ^0.8.0; contract Proxy {}");
   ("ABI", JStr "[]");
   ("ContractName", JStr "Proxy");
   ("Proxy", JStr "1");
   ("Implementation", JStr addrB)].
Definition resultA : json := JDict recordA.

(** ... whose own implementation field points back to [addrA]. *)
Definition bundleB : string :=
  dq "{'language': 'Solidity', 'sources': {'contracts/Logic.sol': {'content': 'contract Logic {}'}, '': {'content': 'library L {}'}}}".
Definition recordB : list (string * json) :=
  [("SourceCode", JStr ("{" +:+ bundleB +:+ "}"));
   ("ABI", JStr "[]");
   ("ContractName", JStr "Logic");
   ("Proxy", JStr "1");
   ("Implementation", JStr addrA)].
Definition resultB : json := JDict recordB.

(** A bundle in the list-of-pairs form, with an empty and a missing name. *)
Definition pairs_blob : string :=
  dq "[['', 'contract A {}'], [null, {'content': 'contract B {}'}], ['C.sol', 'contract C {}']]".

Definition envelope (r : json) : http_reply :=
  Body (JDict [("status", JStr "1"); ("message", JStr "OK"); ("result", JList [r])]).

Definition cycle_api (url : string) : http_reply :=
  if String.eqb url (_API_URL_TMPL 1 (lower addrA) KEY) then envelope resultA
  else if String.eqb url (_API_URL_TMPL 1 (lower addrB) KEY) then envelope resultB
  else Body (JDict [("status", JStr "0"); ("message", JStr "NOTOK");
                    ("result", JStr "Invalid Address format")]).

(** A contract that is no proxy, and an API that knows it on chain 8453. *)
Definition addrC : string := "0xC0FFEE254729296a45a3885639AC7E10F9d54979".
Definition recordC : list (string * json) :=
  [("SourceCode", JStr "/* plain */ contract Plain {}");
   ("ABI", JStr "[]");
   ("ContractName", JStr "Plain");
   ("Proxy", JStr "0");
   ("Implementation", JStr "")].

Definition plain_api (url : string) : http_reply :=
  if String.eqb url (_API_URL_TMPL 8453 (lower addrC) KEY)
  then envelope (JDict recordC)
  else Body (JDict [("status", JStr "0"); ("message", JStr "NOTOK");
                    ("result", JStr "Invalid Address format")]).

(** A bundle with an entry whose content is a number. *)
Definition bad_blob : string :=
  dq "{'A.sol': 'contract A {}', 'B.sol': 7, 'C.sol': 'contract C {}'}".

(** The arguments of [-a addrA -c 1 -o out -r -m --exclude-metadata-keys SourceCode]. *)
Definition argsA : Cli.Namespace :=
  {| Cli.address := addrA; Cli.chainid := 1; Cli.outdir := "out";
     Cli.recursive := true; Cli.download_abi := false;
     Cli.download_metadata := true;
     Cli.include_metadata_keys := None;
     Cli.exclude_metadata_keys := Some "SourceCode" |}.

(** What the writer emits for [resultA] in its directory under [out],
    without the side files. *)
Definition dirA : path := contract_dir py_repr ["out"] recordA (lower addrA).
Definition filesA : trace :=
  Eval vm_compute in
    (write_sources json_loads json_encode py_repr resultA dirA
                   false false None None).2.

(** The same with the ABI and the metadata, the latter without its
    [SourceCode] entry; and what the writer emits for [resultB] in its
    directory below the one of [resultA]. *)
Definition filesA_all : trace :=
  Eval vm_compute in
    (write_sources json_loads json_encode py_repr resultA dirA
                   true true None (Some {["SourceCode"]})).2.
Definition dirB : path :=
  contract_dir py_repr (pjoin dirA ("implementation-" +:+ lower addrB))
               recordB (lower addrB).
Definition filesB_all : trace :=
  Eval vm_compute in
    (write_sources json_loads json_encode py_repr resultB dirB
                   true true None (Some {["SourceCode"]})).2.

(** A proxy that is not verified: its record names [addrB] as the
    implementation and has no source.  [ghost_api] knows no other
    contract. *)
Definition recordG : list (string * json) :=
  [("SourceCode", JStr "");
   ("ABI", JStr "Contract source code not verified");
   ("ContractName", JStr "");
   ("Proxy", JStr "1");
   ("Implementation", JStr addrB)].

Definition ghost_api (url : string) : http_reply :=
  if String.eqb url (_API_URL_TMPL 1 (lower addrA) KEY)
  then envelope (JDict recordG)
  else Body (JDict [("status", JStr "0"); ("message", JStr "NOTOK");
                    ("result", JStr "Invalid Address format")]).

(** An integer of [n] digits. *)
Fixpoint sevens (n : nat) : string :=
  match n with
  | O => EmptyString
  | S n => String "7"%char (sevens n)
  end.
Definition big_integer : string := sevens 4301.

End Sample.

(** * Properties *)

(** ** Strings *)

#[local] Arguments String.append !_ _ / : simpl nomatch.

Lemma lstrip_head s c r : lstrip s = String c r → isspace c = false.
Proof.
  induction s as [|a s IH]; simpl; [discriminate|].
  destruct (isspace a) eqn:Ha; [exact IH|].
  intros [= <- _]. exact Ha.
Qed.

Lemma lstrip_keeps c r : isspace c = false → lstrip (String c r) = String c r.
Proof. intros H. simpl. by rewrite H. Qed.

Lemma startswith_cons s c p :
  startswith s (String c p) = true ↔ ∃ r, s = String c r ∧ startswith r p = true.
Proof.
  unfold startswith. destruct s as [|a s]; simpl.
  - split; [discriminate|]. by intros (r & ? & _).
  - destruct (ascii_dec c a) as [->|Hne].
    + split; [eauto|]. by intros (r & [= ->] & ?).
    + split; [discriminate|]. intros (r & [= ? _] & _). by subst.
Qed.

Lemma startswith_nil s : startswith s "" = true.
Proof. unfold startswith. by destruct s. Qed.

(** After [lstrip] no text starts with a carriage return: the last test of
    [is_single_file_contract] never holds. *)
Lemma lstrip_not_CRLF s : startswith (lstrip s) CRLF = false.
Proof.
  destruct (startswith (lstrip s) CRLF) eqn:H; [|done].
  apply startswith_cons in H as (r & Hs & _).
  apply lstrip_head in Hs. discriminate.
Qed.

Lemma endswith_snoc t d :
  endswith t (String d "") = true → ∃ s, t = s +:+ String d "".
Proof.
  induction t as [|a t IH]; cbn [endswith]; [discriminate|].
  intros [H|H]%orb_true_iff.
  - apply String.eqb_eq in H as ->. by exists "".
  - destruct (IH H) as [s ->]. by exists (String a s).
Qed.

Lemma endswith_app s p : endswith (s +:+ p) p = true.
Proof.
  induction s as [|a s IH]; simpl String.append; cbn [endswith].
  - destruct p; cbn [endswith]; by rewrite String.eqb_refl.
  - rewrite IH. apply orb_true_r.
Qed.

Lemma rstrip_snoc s d :
  isspace d = false → rstrip (s +:+ String d "") = s +:+ String d "".
Proof.
  intros Hd. induction s as [|a s IH]; simpl.
  - by rewrite Hd.
  - rewrite IH. by destruct s.
Qed.

Lemma substring_0_app s d : String.substring 0 (String.length s) (s +:+ d) = s.
Proof. induction s as [|a s IH]; simpl; [by destruct d|by rewrite IH]. Qed.

Lemma length_snoc s d : String.length (s +:+ String d "") = S (String.length s).
Proof. induction s as [|a s IH]; simpl; [done|by rewrite IH]. Qed.

(** [(c + s + d)[1:-1]] is [s]. *)
Lemma slice_1_m1_wrap c s d : slice_1_m1 (String c s +:+ String d "") = s.
Proof.
  unfold slice_1_m1. simpl. rewrite length_snoc. simpl.
  rewrite Nat.sub_0_r. apply substring_0_app.
Qed.

Lemma append_assoc s t u : (s +:+ t) +:+ u = s +:+ (t +:+ u).
Proof. induction s as [|a s IH]; simpl; [done|by rewrite IH]. Qed.

(** A text between two characters that are not blank is its own [strip]. *)
Lemma strip_wrap c s d :
  isspace c = false → isspace d = false →
  strip (String c s +:+ String d "") = String c s +:+ String d "".
Proof.
  intros Hc Hd. unfold strip. simpl String.append. rewrite lstrip_keeps by done.
  by apply (rstrip_snoc (String c s)).
Qed.

Lemma lower_char_idemp c : lower_char (lower_char c) = lower_char c.
Proof. by destruct c as [[] [] [] [] [] [] [] []]. Qed.

Lemma lower_idemp s : lower (lower s) = lower s.
Proof. induction s as [|c s IH]; simpl; [done|]. by rewrite lower_char_idemp, IH. Qed.

Lemma length_append s t :
  String.length (s +:+ t) = String.length s + String.length t.
Proof. induction s as [|a s IH]; simpl; [done|by rewrite IH]. Qed.

Lemma append_inv_tail a b s : a +:+ s = b +:+ s → a = b.
Proof.
  revert b. induction a as [|c a IH]; intros [|d b]; simpl; intros H; try done.
  - apply (f_equal String.length) in H. simpl in H.
    rewrite length_append in H. lia.
  - apply (f_equal String.length) in H. simpl in H.
    rewrite length_append in H. lia.
  - injection H as -> H'. by rewrite (IH _ H').
Qed.

(** One URL per address. *)
Lemma _API_URL_TMPL_inj chainid apikey a b :
  _API_URL_TMPL chainid a apikey = _API_URL_TMPL chainid b apikey → a = b.
Proof.
  unfold _API_URL_TMPL. intros H.
  repeat (apply String.app_inj in H).
  by apply append_inv_tail in H.
Qed.

(** ** The metadata filter *)

Lemma filter_include_exclude (l : list (string * json)) (K : gset string) A :
  (∀ kv, kv ∈ l → kv.1 ∈ K) →
  filter (λ kv, kv.1 ∈ ({[A]} : gset string)) l = filter (λ kv, kv.1 ∉ K ∖ {[A]}) l.
Proof.
  induction l as [|kv l IH]; intros HK; [done|].
  rewrite !filter_cons.
  assert (kv.1 ∈ K) as Hkv by (apply HK; left).
  rewrite IH by (intros x Hx; apply HK; by right).
  destruct (decide (kv.1 ∈ ({[A]} : gset string))) as [H1|H1];
    destruct (decide (kv.1 ∉ K ∖ {[A]})) as [H2|H2]; try done; exfalso.
  - apply H2. by intros [_ H3]%elem_of_difference.
  - apply H2. by apply elem_of_difference.
Qed.

(** C7: keeping only the key [A] is the same as dropping every other key of
    the record, and with neither set the record comes back unfiltered. *)
Theorem filter_metadata_include_is_exclude_others
    (metadata : list (string * json)) (A : string) :
  filter_metadata metadata (Some {[A]}) None
  = filter_metadata metadata None (Some (list_to_set metadata.*1 ∖ {[A]}))
  ∧ filter_metadata metadata None None = metadata.
Proof.
  split; [|done]. unfold filter_metadata.
  apply filter_include_exclude. intros kv Hkv.
  apply elem_of_list_to_set, list_elem_of_fmap. by exists kv.
Qed.

(** C10: with both key sets given the filter still returns, and the result
    is the one of the include set alone. *)
Theorem filter_metadata_include_wins
    (metadata : list (string * json)) (inc exc : gset string) :
  filter_metadata metadata (Some inc) (Some exc)
  = filter_metadata metadata (Some inc) None
  ∧ ∀ kv, kv ∈ filter_metadata metadata (Some inc) (Some exc)
          ↔ kv.1 ∈ inc ∧ kv ∈ metadata.
Proof.
  split; [done|]. intros kv. unfold filter_metadata.
  by rewrite list_elem_of_filter.
Qed.

(** ** The source writer *)

#[local] Arguments is_single_file_contract : simpl never.
#[local] Arguments _parse_source_code_object : simpl never.
#[local] Arguments _sources_to_map : simpl never.
#[local] Arguments truthy : simpl never.
#[local] Arguments String.append : simpl never.
#[local] Arguments pretty : simpl never.

Lemma M_eta {A} (m : M A) : (let '(r, evs) := m in (r, evs)) = m.
Proof. by destruct m. Qed.

Lemma bind_events {A B} (P : event → Prop) (m : M A) (f : A → M B) :
  Forall P m.2 → (∀ a, m.1 = Ok a → Forall P (f a).2) → Forall P (m ≫= f).2.
Proof.
  destruct m as [[a|e] evs]; simpl; [|done].
  intros Hm Hf. specialize (Hf a eq_refl). destruct (f a) as [r evs']. simpl in *.
  by apply Forall_app.
Qed.

Lemma _write_file_events dir name content :
  Forall (file_event_in dir) (_write_file (pjoin dir name) content).2.
Proof.
  destruct content; simpl; repeat constructor; by exists name.
Qed.

Lemma py_pjoin_Ok dir x p : py_pjoin dir x = Ok p → ∃ name, p = pjoin dir name.
Proof. destruct x; simpl; intros [= <-]. eauto. Qed.

Lemma write_entries_in outdir items i :
  Forall (file_event_in outdir) (write_entries outdir i items).2.
Proof.
  revert i. induction items as [|[name code] items IH]; intros i; [by constructor|].
  cbn [write_entries]. apply bind_events; [by constructor|].
  intros p' [n ->]%py_pjoin_Ok. apply bind_events; [|intros _ _; apply IH].
  apply _write_file_events.
Qed.

Lemma single_file_nonempty blob :
  is_single_file_contract blob = true → truthy (JStr blob) = true.
Proof. by destruct blob. Qed.

Lemma write_entries_events outdir (items : list (option string * string)) i :
  write_entries outdir i (map bundle_item items)
  = (Ok tt,
     List.concat (imap (λ k item,
                          file_events (pjoin outdir (entry_name (i + k) item.1)) item.2)
                  items)).
Proof.
  revert i. induction items as [|[name code] items IH]; intros i; [done|].
  cbn [map write_entries bundle_item fst snd imap List.concat].
  rewrite IH. rewrite Nat.add_0_r.
  assert (py_pjoin outdir
            (py_or (from_option JStr JNull name)
                   (JStr ("Contract_" +:+ pretty i +:+ ".sol")))
          = Ok (pjoin outdir (entry_name i name))) as ->.
  { destruct name as [n|]; [|done]. unfold py_or, truthy, entry_name. simpl.
    destruct (decide (n = "")) as [->|Hn]; [done|].
    apply String.eqb_neq in Hn. by rewrite Hn. }
  simpl. do 5 f_equal. apply imap_ext. intros k item _. simpl.
  by rewrite Nat.add_succ_r.
Qed.

(** ** The bundle parser *)

Section Parser.

Context (json_loads : string → loads_result).

Lemma _parse_source_code_object_eq blob :
  _parse_source_code_object json_loads blob
  = (first ← _json_or_none json_loads (bundle_text blob);
     parsed ← (if truthy first then Ok first
               else _json_or_none json_loads (slice_1_m1 (bundle_text blob)));
     if truthy parsed then Ok (bundle_root parsed) else Raise BundleDecodeError).
Proof.
  unfold _parse_source_code_object, bundle_text, bundle_root. cbv zeta.
  set (txt := if _double_curly_wrapped (strip blob) then _ else _).
  destruct (_json_or_none json_loads txt) as [first|e]; simpl; [|done].
  destruct (truthy first) eqn:Hfirst; simpl.
  - rewrite Hfirst. simpl. destruct first as [| | | | |kv]; try done.
    by destruct (dict_get kv "sources").
  - destruct (_json_or_none json_loads _) as [parsed|e]; simpl; [|done].
    destruct (truthy parsed); simpl; [|done].
    destruct parsed as [| | | | |kv]; try done.
    by destruct (dict_get kv "sources").
Qed.

(** What one decode attempt comes to. *)
Lemma _json_or_none_cases txt :
  (attempt_empty json_loads txt
   ∧ ∃ v, _json_or_none json_loads txt = Ok v ∧ truthy v = false)
  ∨ (∃ v, json_loads txt = Decoded v ∧ truthy v = true
          ∧ _json_or_none json_loads txt = Ok v)
  ∨ (∃ x, json_loads txt = LoadsRaises x
          ∧ _json_or_none json_loads txt = Raise (Builtin x)).
Proof.
  unfold _json_or_none, attempt_empty.
  destruct (json_loads txt) as [v| |x].
  - destruct (truthy v) eqn:Hv; [right; left|left]; eauto 10.
  - left. split; [by left|]. by exists JNull.
  - right. right. eauto.
Qed.

Lemma attempt_empty_not_decoded txt v :
  attempt_empty json_loads txt → json_loads txt = Decoded v → truthy v = false.
Proof. intros [H|(w & H & Hw)] Hv; rewrite Hv in H; [done|]. by injection H as ->. Qed.

Lemma attempt_empty_not_raises txt x :
  attempt_empty json_loads txt → json_loads txt ≠ LoadsRaises x.
Proof. intros [H|(w & H & Hw)] Hx; by rewrite Hx in H. Qed.

(** C3, as the program has it.  The parser raises the decode error
    exactly when neither attempt gives a value to go on with: each of the
    strict decode and the decode without the outermost characters raises
    the decode error of the decoder or decodes to one of [null], [false],
    [0], the empty string, the empty list and the empty object.  A
    non-empty value of the first attempt, or of the second when the first
    gave none, is parsed on, and then the second attempt is not made in
    the first case.  Any other exception the decoder leaves with (a
    [ValueError] for an integer of more than 4300 digits, say) is not
    caught: it leaves the parser as it is, and this is the only other way
    the parser raises. *)
Theorem parse_decode_error_iff (blob : string) :
  let first := bundle_text blob in
  let second := slice_1_m1 (bundle_text blob) in
  (_parse_source_code_object json_loads blob = Raise BundleDecodeError
   ↔ attempt_empty json_loads first ∧ attempt_empty json_loads second)
  ∧ (∀ v, json_loads first = Decoded v → truthy v = true →
          _parse_source_code_object json_loads blob = Ok (bundle_root v))
  ∧ (∀ v, attempt_empty json_loads first →
          json_loads second = Decoded v → truthy v = true →
          _parse_source_code_object json_loads blob = Ok (bundle_root v))
  ∧ (∀ x, json_loads first = LoadsRaises x →
          _parse_source_code_object json_loads blob = Raise (Builtin x))
  ∧ (∀ x, attempt_empty json_loads first →
          json_loads second = LoadsRaises x →
          _parse_source_code_object json_loads blob = Raise (Builtin x))
  ∧ (∀ e, _parse_source_code_object json_loads blob = Raise e →
          e = BundleDecodeError
          ∨ ∃ x, e = Builtin x
                 ∧ (json_loads first = LoadsRaises x
                    ∨ attempt_empty json_loads first
                      ∧ json_loads second = LoadsRaises x)).
Proof.
  intros first second. rewrite _parse_source_code_object_eq.
  fold second. fold first. clearbody first second.
  destruct (_json_or_none_cases first)
    as [(Hempty1 & v1 & -> & Hv1)|[(v1 & Hl1 & Hv1 & ->)|(x1 & Hl1 & ->)]];
    simpl.
  - rewrite Hv1.
    destruct (_json_or_none_cases second)
      as [(Hempty2 & v2 & -> & Hv2)|[(v2 & Hl2 & Hv2 & ->)|(x2 & Hl2 & ->)]];
      simpl; rewrite ?Hv2.
    + split; [done|]. split; [|split; [|split; [|split]]].
      * intros v Hl Hv. by rewrite (attempt_empty_not_decoded _ _ Hempty1 Hl) in Hv.
      * intros v _ Hl Hv. by rewrite (attempt_empty_not_decoded _ _ Hempty2 Hl) in Hv.
      * intros x Hl. by destruct (attempt_empty_not_raises _ x Hempty1).
      * intros x _ Hl. by destruct (attempt_empty_not_raises _ x Hempty2).
      * intros e [= <-]. by left.
    + split; [|split; [|split; [|split; [|split]]]].
      * split; [done|]. intros [_ Hempty2].
        by rewrite (attempt_empty_not_decoded _ _ Hempty2 Hl2) in Hv2.
      * intros v Hl Hv. by rewrite (attempt_empty_not_decoded _ _ Hempty1 Hl) in Hv.
      * intros v _ Hl _. rewrite Hl2 in Hl. by injection Hl as <-.
      * intros x Hl. by destruct (attempt_empty_not_raises _ x Hempty1).
      * intros x _ Hl. by rewrite Hl2 in Hl.
      * done.
    + split; [|split; [|split; [|split; [|split]]]].
      * split; [done|]. intros [_ Hempty2].
        by destruct (attempt_empty_not_raises _ x2 Hempty2).
      * intros v Hl Hv. by rewrite (attempt_empty_not_decoded _ _ Hempty1 Hl) in Hv.
      * intros v _ Hl _. by rewrite Hl2 in Hl.
      * intros x Hl. by destruct (attempt_empty_not_raises _ x Hempty1).
      * intros x _ Hl. rewrite Hl2 in Hl. by injection Hl as <-.
      * intros e [= <-]. right. exists x2. eauto.
  - rewrite Hv1. simpl. rewrite Hv1.
    split; [|split; [|split; [|split; [|split]]]].
    + split; [done|]. intros [Hempty1 _].
      by rewrite (attempt_empty_not_decoded _ _ Hempty1 Hl1) in Hv1.
    + intros v Hl _. rewrite Hl1 in Hl. by injection Hl as <-.
    + intros v Hempty1 _ _.
      by rewrite (attempt_empty_not_decoded _ _ Hempty1 Hl1) in Hv1.
    + intros x Hl. by rewrite Hl1 in Hl.
    + intros x Hempty1 _. by rewrite (attempt_empty_not_decoded _ _ Hempty1 Hl1) in Hv1.
    + done.
  - split; [|split; [|split; [|split; [|split]]]].
    + split; [done|]. intros [Hempty1 _].
      by destruct (attempt_empty_not_raises _ x1 Hempty1).
    + intros v Hl _. by rewrite Hl1 in Hl.
    + intros v Hempty1 _ _. by destruct (attempt_empty_not_raises _ x1 Hempty1).
    + intros x Hl. rewrite Hl1 in Hl. by injection Hl as <-.
    + intros x Hempty1 _. by destruct (attempt_empty_not_raises _ x1 Hempty1).
    + intros e [= <-]. right. exists x1. eauto.
Qed.

(** C6: for a JSON text [t] that starts with an opening and ends with a
    closing brace, the wrapped text, [t] between one more pair of braces,
    is parsed exactly as [t] is: the same result, hence the same bundle,
    which is the root of the value of [t] when that value is not empty.
    The decoder is any function that, like [json.loads], accepts no text
    starting with two opening braces. *)
Theorem parse_double_brace_wrapped (t : string) (v : json) :
  (∀ s w, json_loads s = Decoded w → startswith s "{{" = false) →
  json_loads t = Decoded v →
  startswith t "{" = true →
  endswith t "}" = true →
  _parse_source_code_object json_loads ("{" +:+ t +:+ "}")
  = _parse_source_code_object json_loads t
  ∧ (_parse_source_code_object json_loads ("{" +:+ t +:+ "}") ≫= _sources_to_map)
    = (_parse_source_code_object json_loads t ≫= _sources_to_map)
  ∧ (truthy v = true →
     _parse_source_code_object json_loads ("{" +:+ t +:+ "}") = Ok (bundle_root v)).
Proof.
  intros Hgrammar Hv Hstart Hend.
  apply startswith_cons in Hstart as (r & -> & _).
  apply endswith_snoc in Hend as [[|a s] Hs]; [discriminate|].
  simpl in Hs. injection Hs as <- ->.
  change (String "{" (s +:+ "}")) with (String "{" s +:+ String "}" "") in *.
  set (t := String "{" s +:+ String "}" "") in *.
  assert (strip t = t) as Hstrip by (by apply strip_wrap).
  assert (bundle_text t = t) as Ht.
  { unfold bundle_text, _double_curly_wrapped. cbv zeta. rewrite Hstrip.
    change (lstrip t) with t. by rewrite (Hgrammar _ _ Hv). }
  assert (bundle_text ("{" +:+ t +:+ "}") = t) as Hw.
  { unfold bundle_text, _double_curly_wrapped. cbv zeta.
    change ("{" +:+ t +:+ "}") with (String "{" t +:+ String "}" "").
    rewrite strip_wrap by done.
    change (lstrip (String "{" t +:+ String "}" "")) with (String "{" t +:+ String "}" "").
    rewrite (rstrip_snoc (String "{" t)) by done.
    assert (endswith (String "{" t +:+ String "}" "") "}}" = true) as ->.
    { change (String "{" t +:+ String "}" "")
        with ((String "{" (String "{" s) +:+ "}") +:+ "}").
      rewrite append_assoc. apply endswith_app. }
    assert (startswith (String "{" t +:+ String "}" "") "{{" = true) as ->.
    { apply startswith_cons. eexists. split; [reflexivity|].
      apply startswith_cons. eexists. split; [reflexivity|].
      apply startswith_nil. }
    simpl andb. cbv iota. by rewrite slice_1_m1_wrap. }
  assert (_parse_source_code_object json_loads ("{" +:+ t +:+ "}")
          = _parse_source_code_object json_loads t) as Heq.
  { by rewrite !_parse_source_code_object_eq, Ht, Hw. }
  split; [exact Heq|]. split; [by rewrite Heq|].
  intros Htruthy. rewrite Heq, _parse_source_code_object_eq, Ht.
  unfold _json_or_none. rewrite Hv. simpl. rewrite Htruthy. simpl.
  by rewrite Htruthy.
Qed.

End Parser.

(** ** The source writer, continued *)

Section Writer.

Context (json_loads : string → loads_result) (json_dumps : json → string)
        (repr : json → string).

#[local] Arguments side_files : simpl never.

Lemma side_files_off kv outdir inc exc :
  side_files json_dumps kv outdir false false inc exc = (Ok tt, []).
Proof. done. Qed.

Lemma side_files_writes kv outdir save_abi save_metadata inc exc p c :
  WriteText p c ∈ (side_files json_dumps kv outdir save_abi save_metadata inc exc).2 →
  p = pjoin outdir "abi.json" ∨ p = pjoin outdir "contract_metadata.json".
Proof.
  unfold side_files, py_get.
  destruct save_abi, save_metadata; simpl;
    destruct (default (JStr "") (dict_get kv "ABI")); simpl;
    rewrite ?elem_of_cons, ?elem_of_nil; naive_solver.
Qed.

Lemma side_files_in kv outdir save_abi save_metadata inc exc :
  Forall (file_event_in outdir)
         (side_files json_dumps kv outdir save_abi save_metadata inc exc).2.
Proof.
  unfold side_files. apply bind_events.
  - destruct save_abi; [|by constructor].
    apply bind_events; [by constructor|]. intros abi _. apply _write_file_events.
  - intros _ _. destruct save_metadata; [|by constructor].
    apply _write_file_events.
Qed.

(** Whatever the record, [write_sources] only touches files of [outdir]. *)
Lemma write_sources_in result outdir save_abi save_metadata inc exc :
  Forall (file_event_in outdir)
         (write_sources json_loads json_dumps repr result outdir
                        save_abi save_metadata inc exc).2.
Proof.
  unfold write_sources. apply bind_events; [by constructor|].
  intros src_blob Hsrc. destruct (negb (truthy src_blob)); [by constructor|].
  apply bind_events; [by constructor|]. intros blob _.
  destruct result as [| | | | |kv]; try done.
  apply bind_events.
  - destruct (is_single_file_contract blob).
    + apply bind_events; [by constructor|]. intros name _. apply _write_file_events.
    + apply bind_events; [by constructor|]. intros parsed _.
      apply bind_events; [by constructor|]. intros items _. apply write_entries_in.
  - intros _ _. apply (side_files_in kv).
Qed.

Lemma write_sources_with_source kv blob outdir save_abi save_metadata inc exc :
  dict_get kv "SourceCode" = Some (JStr blob) →
  truthy (JStr blob) = true →
  write_sources json_loads json_dumps repr (JDict kv) outdir
                save_abi save_metadata inc exc
  = ((if is_single_file_contract blob
      then
        name ← lift (py_get (JDict kv) "ContractName" JNull);
        let fname := py_format repr (py_or name (JStr "Contract")) +:+ ".sol" in
        _write_file (pjoin outdir fname) (JStr blob)
      else
        parsed ← lift (_parse_source_code_object json_loads blob);
        items ← lift (_sources_to_map parsed);
        write_entries outdir 1 items);;
     side_files json_dumps kv outdir save_abi save_metadata inc exc).
Proof.
  intros Hsrc Hblob. unfold write_sources, side_files, py_get.
  rewrite Hsrc. simpl. rewrite Hblob. simpl. by rewrite !M_eta.
Qed.

(** C4: a blob whose left-stripped text starts with [pragma], [//], [/*]
    or a carriage return and line feed is written as one source file,
    [<ContractName or "Contract">.sol], with the blob itself as content and
    whatever [json.loads] would say; the only other files are the side
    files the options ask for. *)
Theorem write_sources_single_file
    (kv : list (string * json)) (blob name : string) (outdir : path)
    (save_abi save_metadata : bool) (inc exc : option (gset string)) :
  dict_get kv "SourceCode" = Some (JStr blob) →
  startswith (lstrip blob) "pragma" = true ∨ startswith (lstrip blob) "//" = true
  ∨ startswith (lstrip blob) "/*" = true ∨ startswith (lstrip blob) CRLF = true →
  dict_get kv "ContractName" = Some (JStr name) ∧ name ≠ ""
  ∨ (dict_get kv "ContractName" = None
     ∨ dict_get kv "ContractName" = Some (JStr "")) ∧ name = "Contract" →
  ∃ r extra,
    write_sources json_loads json_dumps repr (JDict kv) outdir
                  save_abi save_metadata inc exc
    = (r, [MkdirParents (pjoin outdir (name +:+ ".sol"));
           WriteText (pjoin outdir (name +:+ ".sol")) blob;
           Shown (pjoin outdir (name +:+ ".sol"))] ++ extra)
    ∧ (∀ p c, WriteText p c ∈ extra →
              p = pjoin outdir "abi.json" ∨ p = pjoin outdir "contract_metadata.json")
    ∧ (save_abi = false → save_metadata = false → r = Ok tt ∧ extra = []).
Proof.
  intros Hsrc Hstart Hname.
  assert (is_single_file_contract blob = true) as Hsingle.
  { unfold is_single_file_contract. cbv zeta.
    destruct Hstart as [->|[->|[->| ->]]]; by rewrite ?orb_true_r. }
  rewrite (write_sources_with_source _ _ _ _ _ _ _ Hsrc
             (single_file_nonempty _ Hsingle)).
  rewrite Hsingle.
  assert (py_format repr
            (py_or (default JNull (dict_get kv "ContractName")) (JStr "Contract"))
          = name) as Hn.
  { destruct Hname as [[-> Hne]|[[-> | ->] ->]]; try done.
    unfold py_or, truthy. simpl. apply String.eqb_neq in Hne. by rewrite Hne. }
  pose proof (side_files_writes kv outdir save_abi save_metadata inc exc) as Hw.
  pose proof (side_files_off kv outdir inc exc) as Hoff.
  destruct (side_files json_dumps kv outdir save_abi save_metadata inc exc) as [r extra] eqn:Hside.
  exists r, extra. unfold py_get. simpl. simpl in Hn. rewrite Hn. simpl.
  split; [done|]. split; [exact Hw|].
  intros -> ->. rewrite Hoff in Hside. by injection Hside as <- <-.
Qed.

(** C5: the entries of a normalized bundle are written in order, the
    [i]-th (from 1) under its own name, or under [Contract_<i>.sol] when
    its name is empty or missing. *)
Theorem write_sources_entry_names
    (kv : list (string * json)) (blob : string) (parsed : json)
    (items : list (option string * string)) (outdir : path)
    (inc exc : option (gset string)) :
  dict_get kv "SourceCode" = Some (JStr blob) →
  blob ≠ "" →
  is_single_file_contract blob = false →
  _parse_source_code_object json_loads blob = Ok parsed →
  _sources_to_map parsed = Ok (map bundle_item items) →
  write_sources json_loads json_dumps repr (JDict kv) outdir false false inc exc
  = (Ok tt,
     List.concat
       (imap (λ k item,
                let p := pjoin outdir (entry_name (S k) item.1) in
                [MkdirParents p; WriteText p item.2; Shown p])
             items)).
Proof.
  intros Hsrc Hblob Hsingle Hparse Hmap.
  assert (truthy (JStr blob) = true) as Htruthy.
  { unfold truthy. apply String.eqb_neq in Hblob. by rewrite Hblob. }
  rewrite (write_sources_with_source _ _ _ _ _ _ _ Hsrc Htruthy).
  rewrite Hsingle, Hparse, side_files_off. simpl. rewrite Hmap. simpl.
  rewrite write_entries_events. simpl. by rewrite !app_nil_r.
Qed.

(** C9: a record without source (no [SourceCode] key, or an empty one)
    makes [write_sources] raise the no-source error before any event:
    nothing is created or written, whatever the options. *)
Theorem write_sources_no_source
    (kv : list (string * json)) (outdir : path) (save_abi save_metadata : bool)
    (inc exc : option (gset string)) :
  dict_get kv "SourceCode" = None ∨ dict_get kv "SourceCode" = Some (JStr "") →
  write_sources json_loads json_dumps repr (JDict kv) outdir
                save_abi save_metadata inc exc
  = (Raise NoSourceError, []).
Proof.
  intros H. unfold write_sources, py_get.
  by destruct H as [-> | ->].
Qed.

End Writer.

(** ** The recursive downloader *)

Section Downloader.

Context (json_loads : string → loads_result) (json_dumps : json → string)
        (requests_get : string → http_reply) (repr : json → string).

#[local] Arguments write_sources : simpl never.
#[local] Arguments fetch_source : simpl never.
#[local] Arguments contract_dir : simpl never.

Lemma file_events_no_fetch dir evs :
  Forall (file_event_in dir) evs → fetches evs = [].
Proof.
  induction 1 as [|e evs He _ IH]; [done|].
  destruct e; try done; exact IH.
Qed.

Lemma fetches_app evs1 evs2 : fetches (evs1 ++ evs2) = fetches evs1 ++ fetches evs2.
Proof. apply omap_app. Qed.

Lemma fetches_print line evs : fetches (Print line :: evs) = fetches evs.
Proof. done. Qed.

Lemma fetches_get url evs : fetches (HttpGet url :: evs) = url :: fetches evs.
Proof. done. Qed.

Ltac fetches_norm :=
  repeat first [rewrite fetches_app | rewrite fetches_print | rewrite fetches_get];
  change (fetches []) with (@nil string).

Lemma fetches_body line url evs :
  fetches evs = [] → fetches (Print line :: [HttpGet url] ++ evs) = [url].
Proof. intros H. change (url :: fetches evs = [url]). by rewrite H. Qed.

Lemma fetch_source_events address chainid apikey :
  (fetch_source requests_get address chainid apikey).2
  = [HttpGet (_API_URL_TMPL chainid address apikey)]
  ∨ fetch_source requests_get address chainid apikey = (Raise ConfigError, []).
Proof.
  unfold fetch_source.
  destruct (negb (truthy (JStr apikey)) || _); [by right|left].
  destruct (requests_get _) as [e| |data]; try done. simpl.
  destruct (py_get data "status" JNull) as [status|e]; simpl; [|done].
  destruct (negb (py_eq_str status "1")); simpl.
  - by destruct (py_get data "result" (JStr "unknown")).
  - by destruct (py_getitem data "result" ≫= py_getitem0).
Qed.

(** One call on an address that is not yet visited, in terms of what the
    fetch and the writer give. *)
Lemma download_recursive_unfold
    fuel address chainid outdir apikey save_abi save_metadata inc exc visited :
  lower address ∉ visited →
  download_contract_source_recursive json_loads json_dumps requests_get repr
    (S fuel) address chainid outdir apikey save_abi save_metadata inc exc
    (Some visited)
  = let a := lower address in
    let visited' := visited ∪ {[a]} in
    let pre := Print ("[=] Downloading contract " +:+ a
                      +:+ " (chain " +:+ pretty chainid +:+ ")") in
    match fetch_source requests_get a chainid apikey with
    | (Raise e, evs1) => Done (Raise e) visited' (pre :: evs1)
    | (Ok (JDict kv), evs1) =>
        let base_dir := contract_dir repr outdir kv (lower a) in
        match write_sources json_loads json_dumps repr (JDict kv) base_dir
                            save_abi save_metadata inc exc with
        | (Raise e, evs2) => Done (Raise e) visited' (pre :: evs1 ++ evs2)
        | (Ok _, evs2) =>
            match py_lower (default (JStr "") (dict_get kv "Implementation")) with
            | Raise e => Done (Raise e) visited' (pre :: evs1 ++ evs2)
            | Ok implementation =>
                if py_eq_str (default JNull (dict_get kv "Proxy")) "1"
                   && truthy (JStr implementation)
                   && negb (String.eqb implementation ZERO_ADDRESS)
                then
                  after
                    (pre :: evs1 ++ evs2
                     ++ [Print ("[=] Detected proxy contract. Downloading implementation at "
                                +:+ implementation)])
                    (download_contract_source_recursive
                       json_loads json_dumps requests_get repr fuel
                       implementation chainid
                       (pjoin base_dir ("implementation-" +:+ implementation))
                       apikey save_abi save_metadata inc exc (Some visited'))
                else Done (Ok tt) visited' (pre :: evs1 ++ evs2)
            end
        end
    | (Ok _, evs1) => Done (Raise (Builtin AttributeError)) visited' (pre :: evs1)
    end.
Proof.
  intros Ha. cbn [download_contract_source_recursive default]. 
  rewrite decide_False by done. cbv zeta.
  destruct (fetch_source requests_get (lower address) chainid apikey)
    as [[result|e] evs1]; [|done].
  destruct result as [| | | | |kv]; simpl; rewrite ?app_nil_r; try done.
  fold (contract_dir repr outdir kv (lower (lower address))).
  destruct (write_sources _ _ _ _ _ _ _ _ _) as [[[]|e] evs2]; simpl;
    rewrite ?app_nil_r; [|done].
  destruct (py_lower _) as [implementation|e]; simpl; rewrite ?app_nil_r; [|done].
  destruct (_ && _ && _); [|done].
  by rewrite <- !app_assoc.
Qed.

Lemma proxy_target_test kv :
  match py_lower (default (JStr "") (dict_get kv "Implementation")) with
  | Ok implementation =>
      if py_eq_str (default JNull (dict_get kv "Proxy")) "1"
         && truthy (JStr implementation)
         && negb (String.eqb implementation ZERO_ADDRESS)
      then proxy_target kv implementation
      else ¬ ∃ impl, proxy_target kv impl
  | Raise e => e = Builtin AttributeError ∧ ¬ ∃ impl, proxy_target kv impl
  end.
Proof.
  unfold proxy_target.
  destruct (dict_get kv "Implementation") as [v|] eqn:Himpl; simpl.
  2:{ rewrite andb_false_r. by intros (? & _ & ? & ? & _). }
  destruct v as [| | |s| |]; simpl;
    try (split; [done|]; by intros (? & _ & ? & ? & _)).
  destruct (dict_get kv "Proxy") as [v|] eqn:Hproxy; simpl.
  2:{ by intros (? & ? & _). }
  destruct (py_eq_str v "1") eqn:Hv; simpl.
  2:{ intros (? & [= ->] & _). by vm_compute in Hv. }
  destruct v as [| | |flag| |]; try done. apply String.eqb_eq in Hv as ->.
  unfold truthy.
  destruct (String.eqb_spec (lower s) "") as [Hs|Hs]; simpl.
  { intros (? & _ & ? & [= <-] & Hne & _). by destruct s. }
  destruct (String.eqb_spec (lower s) ZERO_ADDRESS) as [Hz|Hz]; simpl.
  { by intros (? & _ & ? & [= <-] & _ & ? & _). }
  split; [done|]. exists s. repeat split; try done. by intros ->.
Qed.

Lemma download_recursive_skips_visited_eq
    fuel address chainid outdir apikey save_abi save_metadata inc exc visited :
  lower address ∈ visited →
  download_contract_source_recursive json_loads json_dumps requests_get repr
    (S fuel) address chainid outdir apikey save_abi save_metadata inc exc
    (Some visited)
  = Done (Ok tt) visited
         [Print ("[!] Already downloaded " +:+ lower address
                 +:+ ", skipping to avoid cycle")].
Proof.
  intros H. cbn [download_contract_source_recursive default].
  by rewrite decide_True.
Qed.

Lemma download_recursive_None
    fuel address chainid outdir apikey save_abi save_metadata inc exc :
  download_contract_source_recursive json_loads json_dumps requests_get repr
    fuel address chainid outdir apikey save_abi save_metadata inc exc None
  = download_contract_source_recursive json_loads json_dumps requests_get repr
      fuel address chainid outdir apikey save_abi save_metadata inc exc (Some ∅).
Proof. by destruct fuel. Qed.

Lemma proxy_target_lower kv impl : proxy_target kv impl → lower impl = impl.
Proof. intros (_ & s & _ & _ & _ & ->). apply lower_idemp. Qed.

Lemma proxy_target_unique kv x y : proxy_target kv x → proxy_target kv y → x = y.
Proof.
  intros (_ & s & Hs & _ & _ & ->) (_ & s' & Hs' & _ & _ & ->). congruence.
Qed.

(** A call on a new lower-case address whose record designates [impl]
    goes on as the call on [impl]. *)
Lemma download_recursive_enters
    fuel a chainid outdir apikey save_abi save_metadata inc exc visited
    kv evs1 evs2 impl :
  lower a = a →
  a ∉ visited →
  fetch_source requests_get a chainid apikey = (Ok (JDict kv), evs1) →
  write_sources json_loads json_dumps repr (JDict kv) (contract_dir repr outdir kv a)
                save_abi save_metadata inc exc = (Ok tt, evs2) →
  proxy_target kv impl →
  download_contract_source_recursive json_loads json_dumps requests_get repr
    (S fuel) a chainid outdir apikey save_abi save_metadata inc exc (Some visited)
  = after
      (Print ("[=] Downloading contract " +:+ a
              +:+ " (chain " +:+ pretty chainid +:+ ")") :: evs1 ++ evs2
       ++ [Print ("[=] Detected proxy contract. Downloading implementation at "
                  +:+ impl)])
      (download_contract_source_recursive json_loads json_dumps requests_get repr
         fuel impl chainid
         (pjoin (contract_dir repr outdir kv a) ("implementation-" +:+ impl))
         apikey save_abi save_metadata inc exc (Some (visited ∪ {[a]}))).
Proof.
  intros Hlow Ha Hfetch Hwrite Himpl.
  rewrite download_recursive_unfold by (by rewrite Hlow). cbv zeta.
  rewrite !Hlow, Hfetch, Hwrite.
  pose proof (proxy_target_test kv) as Htest.
  destruct (py_lower _) as [implementation|e]; [|destruct Htest as [_ []]; eauto].
  destruct (_ && _ && _); [|destruct Htest; eauto].
  by rewrite (proxy_target_unique _ _ _ Himpl Htest).
Qed.

(** The two-hop cycle: [a] designates [b] and [b] designates [a]. *)
Lemma download_recursive_two_hop
    fuel a b chainid outdir apikey save_abi save_metadata inc exc
    kvA kvB evsA evsB :
  fetch_source requests_get a chainid apikey = (Ok (JDict kvA), evsA) →
  proxy_target kvA b →
  fetch_source requests_get b chainid apikey = (Ok (JDict kvB), evsB) →
  proxy_target kvB a →
  a ≠ b →
  let dirA := contract_dir repr outdir kvA a in
  let dirB := contract_dir repr (pjoin dirA ("implementation-" +:+ b)) kvB b in
  let url := λ x, _API_URL_TMPL chainid x apikey in
  ∃ r visited' evs,
    download_contract_source_recursive json_loads json_dumps requests_get repr
      (S (S (S fuel))) a chainid outdir apikey save_abi save_metadata inc exc None
    = Done r visited' evs
    ∧ (fetches evs = [url a] ∨ fetches evs = [url a; url b])
    ∧ (∀ p c, WriteText p c ∈ evs → ∃ name, p = pjoin dirA name ∨ p = pjoin dirB name)
    ∧ (r = Ok tt →
       fetches evs = [url a; url b] ∧ visited' = {[a; b]}
       ∧ last evs = Some (Print ("[!] Already downloaded " +:+ a
                                 +:+ ", skipping to avoid cycle"))).
Proof.
  intros HfA HtA HfB HtB Hab dirA dirB url.
  pose proof (proxy_target_lower _ _ HtA) as Hlb.
  pose proof (proxy_target_lower _ _ HtB) as Hla.
  assert (evsA = [HttpGet (url a)]) as ->.
  { destruct (fetch_source_events a chainid apikey) as [H|H]; rewrite HfA in H; [done|].
    discriminate. }
  assert (evsB = [HttpGet (url b)]) as ->.
  { destruct (fetch_source_events b chainid apikey) as [H|H]; rewrite HfB in H; [done|].
    discriminate. }
  pose proof (write_sources_in json_loads json_dumps repr (JDict kvA) dirA
                save_abi save_metadata inc exc) as HwA.
  pose proof (write_sources_in json_loads json_dumps repr (JDict kvB) dirB
                save_abi save_metadata inc exc) as HwB.
  rewrite download_recursive_None.
  destruct (write_sources json_loads json_dumps repr (JDict kvA) dirA
              save_abi save_metadata inc exc) as [rA evsA2] eqn:HA.
  destruct (write_sources json_loads json_dumps repr (JDict kvB) dirB
              save_abi save_metadata inc exc) as [rB evsB2] eqn:HB.
  simpl in HwA, HwB.
  assert (∀ p c, WriteText p c ∈ evsA2 → ∃ name, p = pjoin dirA name ∨ p = pjoin dirB name)
    as HpA.
  { intros p c Hp. rewrite Forall_forall in HwA. destruct (HwA _ Hp) as [n ->]. eauto. }
  assert (∀ p c, WriteText p c ∈ evsB2 → ∃ name, p = pjoin dirA name ∨ p = pjoin dirB name)
    as HpB.
  { intros p c Hp. rewrite Forall_forall in HwB. destruct (HwB _ Hp) as [n ->]. eauto. }
  pose proof (file_events_no_fetch _ _ HwA) as HnA.
  pose proof (file_events_no_fetch _ _ HwB) as HnB.
  destruct rA as [[]|eA].
  2:{ rewrite download_recursive_unfold by (rewrite Hla; set_solver). cbv zeta.
      rewrite !Hla, HfA. fold dirA. rewrite HA.
      do 3 eexists. split; [reflexivity|]. split; [left; by apply fetches_body|].
      split; [|done]. intros p c [?|[?|?]%elem_of_cons]%elem_of_cons; try done. eauto. }
  rewrite (download_recursive_enters _ _ _ _ _ _ _ _ _ _ _ _ _ _ Hla
             (not_elem_of_empty a) HfA HA HtA).
  fold dirA.
  destruct rB as [[]|eB].
  2:{ rewrite download_recursive_unfold by (rewrite Hlb; set_solver). cbv zeta.
      rewrite !Hlb, HfB. fold dirB. rewrite HB. cbn [after].
      do 3 eexists. split; [reflexivity|]. split; [|split; [|done]].
      - right. fetches_norm. by rewrite HnA, HnB.
      - intros p c Hp. set_unfold in Hp. naive_solver. }
  assert (b ∉ (∅ ∪ {[a]} : gset string)) as Hb by set_solver.
  rewrite (download_recursive_enters _ _ _ _ _ _ _ _ _ _ _ _ _ _ Hlb Hb HfB HB HtB).
  fold dirB.
  rewrite download_recursive_skips_visited_eq by (rewrite Hla; set_solver).
  cbn [after]. rewrite Hla.
  do 3 eexists. split; [reflexivity|].
  split; [right; fetches_norm; by rewrite HnA, HnB|].
  split; [intros p c Hp; set_unfold in Hp; naive_solver|].
  intros _. split; [fetches_norm; by rewrite HnA, HnB|]. split.
  - apply set_eq. intros x. set_solver.
  - rewrite !app_assoc. apply last_snoc.
Qed.

(** The runs of the two-hop cycle, by what the writer makes of the two
    records. *)
Lemma download_recursive_two_hop_runs
    fuel a b chainid outdir apikey save_abi save_metadata inc exc
    kvA kvB evsA evsB :
  fetch_source requests_get a chainid apikey = (Ok (JDict kvA), evsA) →
  proxy_target kvA b →
  fetch_source requests_get b chainid apikey = (Ok (JDict kvB), evsB) →
  proxy_target kvB a →
  a ≠ b →
  let dirA := contract_dir repr outdir kvA a in
  let dirB := contract_dir repr (pjoin dirA ("implementation-" +:+ b)) kvB b in
  let writeA := write_sources json_loads json_dumps repr (JDict kvA) dirA
                              save_abi save_metadata inc exc in
  let writeB := write_sources json_loads json_dumps repr (JDict kvB) dirB
                              save_abi save_metadata inc exc in
  let fetched x :=
    [Print ("[=] Downloading contract " +:+ x
            +:+ " (chain " +:+ pretty chainid +:+ ")");
     HttpGet (_API_URL_TMPL chainid x apikey)] in
  let detected x :=
    Print ("[=] Detected proxy contract. Downloading implementation at " +:+ x) in
  let run :=
    download_contract_source_recursive json_loads json_dumps requests_get repr
      (S (S (S fuel))) a chainid outdir apikey save_abi save_metadata inc exc None in
  (∀ evsA2 evsB2,
     writeA = (Ok tt, evsA2) → writeB = (Ok tt, evsB2) →
     run = Done (Ok tt) {[a; b]}
                (fetched a ++ evsA2 ++ [detected b] ++ fetched b ++ evsB2
                 ++ [detected a;
                     Print ("[!] Already downloaded " +:+ a
                            +:+ ", skipping to avoid cycle")]))
  ∧ (∀ evsA2 e evsB2,
       writeA = (Ok tt, evsA2) → writeB = (Raise e, evsB2) →
       run = Done (Raise e) {[a; b]}
                  (fetched a ++ evsA2 ++ [detected b] ++ fetched b ++ evsB2))
  ∧ (∀ e evsA2,
       writeA = (Raise e, evsA2) →
       run = Done (Raise e) {[a]} (fetched a ++ evsA2)).
Proof.
  intros HfA HtA HfB HtB Hab dirA dirB writeA writeB fetched detected run.
  pose proof (proxy_target_lower _ _ HtA) as Hlb.
  pose proof (proxy_target_lower _ _ HtB) as Hla.
  assert (evsA = [HttpGet (_API_URL_TMPL chainid a apikey)]) as ->.
  { destruct (fetch_source_events a chainid apikey) as [H|H]; rewrite HfA in H; [done|].
    discriminate. }
  assert (evsB = [HttpGet (_API_URL_TMPL chainid b apikey)]) as ->.
  { destruct (fetch_source_events b chainid apikey) as [H|H]; rewrite HfB in H; [done|].
    discriminate. }
  assert (b ∉ (∅ ∪ {[a]} : gset string)) as Hb by set_solver.
  assert ((∅ ∪ {[a]} : gset string) = {[a]}) as Hva by set_solver.
  assert ((∅ ∪ {[a]} ∪ {[b]} : gset string) = {[a; b]}) as Hvab by set_solver.
  subst run writeA writeB. rewrite download_recursive_None.
  split; [|split].
  - intros evsA2 evsB2 HA HB.
    rewrite (download_recursive_enters _ _ _ _ _ _ _ _ _ _ _ _ _ _ Hla
               (not_elem_of_empty a) HfA HA HtA).
    fold dirA.
    rewrite (download_recursive_enters _ _ _ _ _ _ _ _ _ _ _ _ _ _ Hlb Hb HfB HB HtB).
    fold dirB.
    rewrite download_recursive_skips_visited_eq by (rewrite Hla; set_solver).
    cbn [after]. rewrite Hla, Hvab. f_equal. subst fetched detected. simpl.
    by rewrite <- !app_assoc.
  - intros evsA2 e evsB2 HA HB.
    rewrite (download_recursive_enters _ _ _ _ _ _ _ _ _ _ _ _ _ _ Hla
               (not_elem_of_empty a) HfA HA HtA).
    fold dirA.
    rewrite download_recursive_unfold by (rewrite Hlb; set_solver). cbv zeta.
    rewrite !Hlb, HfB. fold dirB. rewrite HB. cbn [after]. rewrite Hvab.
    f_equal. subst fetched detected. simpl. by rewrite <- !app_assoc.
  - intros e evsA2 HA.
    rewrite download_recursive_unfold by (rewrite Hla; set_solver). cbv zeta.
    rewrite !Hla, HfA. fold dirA. rewrite HA. by rewrite Hva.
Qed.

(** C2, as the program has it.  The decision is taken after the record
    has been fetched and written.  When the writer has succeeded, the call
    goes on into the implementation exactly when the record designates
    one: it is the call on that address, in the directory
    [implementation-<address>] and with the same visited set, when the
    proxy flag is ["1"] and the implementation field is present, not
    empty and not the zero address; it ends there, with no further event,
    in every other case, the one of a zero address included.  When the
    writer has failed, its error ends the call, and nothing follows it,
    whatever the record says of an implementation. *)
Theorem download_recursive_proxy_iff
    (fuel : nat) (address : string) (chainid : Z) (outdir : path)
    (apikey : string) (save_abi save_metadata : bool)
    (inc exc : option (gset string)) (visited : gset string)
    (kv : list (string * json)) (evs1 : trace) :
  let a := lower address in
  let base_dir := contract_dir repr outdir kv a in
  let visited' := visited ∪ {[a]} in
  let evs evs2 := Print ("[=] Downloading contract " +:+ a
                         +:+ " (chain " +:+ pretty chainid +:+ ")")
                  :: evs1 ++ evs2 in
  let call fuel address outdir _visited :=
    download_contract_source_recursive json_loads json_dumps requests_get repr
      fuel address chainid outdir apikey save_abi save_metadata inc exc _visited in
  a ∉ visited →
  fetch_source requests_get a chainid apikey = (Ok (JDict kv), evs1) →
  (∀ evs2,
     write_sources json_loads json_dumps repr (JDict kv) base_dir
                   save_abi save_metadata inc exc = (Ok tt, evs2) →
     (∀ impl, proxy_target kv impl →
        call (S fuel) address outdir (Some visited)
        = after (evs evs2
                 ++ [Print ("[=] Detected proxy contract. Downloading implementation at "
                            +:+ impl)])
                (call fuel impl (pjoin base_dir ("implementation-" +:+ impl))
                      (Some visited')))
     ∧ ((¬ ∃ impl, proxy_target kv impl) →
        ∃ r, call (S fuel) address outdir (Some visited)
             = Done r visited' (evs evs2)
             ∧ (r = Ok tt ∨ r = Raise (Builtin AttributeError)))
     ∧ (dict_get kv "Proxy" = Some (JStr "1") →
        dict_get kv "Implementation" = Some (JStr ZERO_ADDRESS) →
        call (S fuel) address outdir (Some visited)
        = Done (Ok tt) visited' (evs evs2)))
  ∧ (∀ e evs2,
       write_sources json_loads json_dumps repr (JDict kv) base_dir
                     save_abi save_metadata inc exc = (Raise e, evs2) →
       call (S fuel) address outdir (Some visited)
       = Done (Raise e) visited' (evs evs2)).
Proof.
  intros a base_dir visited' evs call Ha Hfetch. subst call evs. cbv beta.
  rewrite (download_recursive_unfold _ _ _ _ _ _ _ _ _ _ Ha). cbv zeta.
  rewrite lower_idemp. fold a. rewrite Hfetch.
  fold base_dir. fold visited'.
  split; [|by intros e evs2 ->].
  intros evs2 ->.
  pose proof (proxy_target_test kv) as Htest.
  split; [|split].
  - intros impl Himpl.
    destruct (py_lower _) as [implementation|e]; [|destruct Htest as [_ []]; eauto].
    destruct (_ && _ && _); [|destruct Htest; eauto].
    assert (impl = implementation) as ->.
    { destruct Himpl as (_ & s & Hs & _ & _ & ->).
      destruct Htest as (_ & s' & Hs' & _ & _ & ->). congruence. }
    simpl. by rewrite <- app_assoc.
  - intros Hnone.
    destruct (py_lower _) as [implementation|e].
    + destruct (_ && _ && _); [destruct Hnone; eauto|]. eauto.
    + destruct Htest as [-> _]. eauto.
  - intros Hproxy Himpl. rewrite Himpl. simpl. by rewrite andb_false_r.
Qed.

Lemma download_recursive_lower
    fuel address chainid outdir apikey save_abi save_metadata inc exc _visited :
  download_contract_source_recursive json_loads json_dumps requests_get repr
    fuel (lower address) chainid outdir apikey save_abi save_metadata inc exc _visited
  = download_contract_source_recursive json_loads json_dumps requests_get repr
      fuel address chainid outdir apikey save_abi save_metadata inc exc _visited.
Proof.
  destruct fuel; [done|]. cbn [download_contract_source_recursive]. cbv zeta.
  by rewrite !lower_idemp.
Qed.

(** More fuel does not change the outcome of a call that ends. *)
Lemma download_recursive_fuel_mono
    chainid apikey save_abi save_metadata inc exc (fuel : nat) :
  ∀ (fuel' : nat) address outdir visited r visited' evs,
    (fuel ≤ fuel')%nat →
    download_contract_source_recursive json_loads json_dumps requests_get repr
      fuel address chainid outdir apikey save_abi save_metadata inc exc
      (Some visited) = Done r visited' evs →
    download_contract_source_recursive json_loads json_dumps requests_get repr
      fuel' address chainid outdir apikey save_abi save_metadata inc exc
      (Some visited) = Done r visited' evs.
Proof.
  induction fuel as [|fuel IH]; intros fuel' address outdir visited r visited' evs
    Hle; [done|].
  destruct fuel' as [|fuel']; [lia|].
  destruct (decide (lower address ∈ visited)) as [Hin|Hnew].
  { by rewrite !download_recursive_skips_visited_eq. }
  rewrite !download_recursive_unfold by done. cbv zeta.
  destruct (fetch_source _ _ _ _) as [[result|e] evs1]; [|done].
  destruct result as [| | | | |kv]; try done.
  destruct (write_sources _ _ _ _ _ _ _ _ _) as [[[]|e] evs2]; [|done].
  destruct (py_lower _) as [implementation|e]; [|done].
  destruct (_ && _ && _); [|done].
  destruct (download_contract_source_recursive _ _ _ _ fuel _ _ _ _ _ _ _ _ _)
    as [|r0 v0 evs0] eqn:Hcall; [done|].
  apply (IH fuel') in Hcall; [|lia]. by rewrite Hcall.
Qed.

(** With enough fuel for the addresses of the graph that are not yet
    visited, a call ends; the addresses it requests are new and pairwise
    different. *)
Lemma download_recursive_total
    (U : gset string) chainid apikey save_abi save_metadata inc exc :
  proxy_graph requests_get chainid apikey U →
  ∀ fuel address outdir visited,
    lower address ∈ U →
    size (U ∖ visited) < fuel →
    ∃ r visited' evs new,
      download_contract_source_recursive json_loads json_dumps requests_get repr
        fuel address chainid outdir apikey save_abi save_metadata inc exc
        (Some visited)
      = Done r visited' evs
      ∧ visited ⊆ visited'
      ∧ fetches evs = map (λ a, _API_URL_TMPL chainid a apikey) new
      ∧ NoDup new
      ∧ (∀ x, x ∈ new → (x ∉ visited) ∧ (x ∈ visited'))
      ∧ lower address ∈ visited'.
Proof.
  intros HU. induction fuel as [|fuel IH]; intros address outdir visited Ha Hsize;
    [lia|].
  destruct (decide (lower address ∈ visited)) as [Hin|Hnew].
  { rewrite (download_recursive_skips_visited_eq _ _ _ _ _ _ _ _ _ _ Hin).
    do 3 eexists. exists []. split; [reflexivity|]. split; [done|].
    split; [done|]. split; [apply NoDup_nil_2|]. split; [|done].
    by intros x ?%elem_of_nil. }
  rewrite (download_recursive_unfold _ _ _ _ _ _ _ _ _ _ Hnew). cbv zeta.
  set (a := lower address) in *. set (visited' := visited ∪ {[a]}).
  set (url := λ a, _API_URL_TMPL chainid a apikey).
  assert (visited ⊆ visited') as Hsub by set_solver.
  (* what a call that stops here leaves behind *)
  assert (∀ r evs, (fetches evs = [] ∨ fetches evs = [url a]) →
            ∃ r0 v0 evs0 new,
              Done r visited' evs = Done r0 v0 evs0 ∧ visited ⊆ v0
              ∧ fetches evs0 = map url new ∧ NoDup new
              ∧ (∀ x, x ∈ new → (x ∉ visited) ∧ (x ∈ v0))
              ∧ a ∈ v0) as Hstop.
  { intros r evs [Hf|Hf].
    - exists r, visited', evs, []. split; [done|]. split; [done|].
      split; [done|]. split; [apply NoDup_nil_2|]. split; [|set_solver].
      by intros x ?%elem_of_nil.
    - exists r, visited', evs, [a]. split; [done|]. split; [done|].
      split; [done|]. split; [apply NoDup_singleton|]. split; [|set_solver].
      intros x ->%list_elem_of_singleton. set_solver. }
  pose proof (fetch_source_events a chainid apikey) as Hfetch.
  destruct (fetch_source requests_get a chainid apikey) as [[result|e] evs1] eqn:Hres.
  2:{ apply Hstop. destruct Hfetch as [Hf|[= _ ->]]; [right|left]; [|done].
      simpl in Hf. by rewrite Hf. }
  destruct Hfetch as [Hf|[=]]. simpl in Hf. subst evs1.
  destruct result as [| | | | |kv]; try (apply Hstop; by right).
  pose proof (write_sources_in json_loads json_dumps repr (JDict kv)
                (contract_dir repr outdir kv (lower a))
                save_abi save_metadata inc exc) as Hw.
  apply file_events_no_fetch in Hw.
  destruct (write_sources _ _ _ _ _ _ _ _ _) as [[[]|e] evs2]; simpl in Hw.
  2:{ apply Hstop. right. by apply fetches_body. }
  pose proof (proxy_target_test kv) as Htest.
  destruct (py_lower _) as [implementation|e].
  2:{ apply Hstop. right. by apply fetches_body. }
  destruct (_ && _ && _).
  2:{ apply Hstop. right. by apply fetches_body. }
  assert (implementation ∈ U) as Himpl.
  { apply (HU a); [done|]. by exists kv, [HttpGet (url a)]. }
  destruct (IH implementation
              (pjoin (contract_dir repr outdir kv (lower a))
                     ("implementation-" +:+ implementation)) visited')
    as (r & v & evs & new & -> & Hv & Hfe & Hnd & Hnew' & _).
  { by rewrite (proxy_target_lower _ _ Htest). }
  { assert (U ∖ visited' ⊂ U ∖ visited) as Hlt%subset_size; [|lia].
    split; [set_solver|]. intros Hc. specialize (Hc a). set_solver. }
  cbn [after]. do 3 eexists. exists (a :: new).
  split; [reflexivity|]. split; [set_solver|]. split; [|split; [|split]].
  4:{ set_solver. }
  - rewrite fetches_app, Hfe.
    change (fetches (Print ?l :: [HttpGet ?u] ++ ?e))
      with (u :: fetches e).
    by rewrite fetches_app, Hw.
  - constructor; [|done]. intros Hx. apply Hnew' in Hx as [Hx _]. set_solver.
  - intros x [->|Hx]%elem_of_cons; [set_solver|].
    apply Hnew' in Hx as [? ?]. set_solver.
Qed.

(** C1: on a finite proxy graph the recursive downloader ends, by
    returning or by raising, as soon as the fuel exceeds the number of
    addresses of the graph that are not yet visited, and more fuel gives
    the same outcome.  The address of the call is in the visited set it
    leaves, the addresses it requests were not visited before and are
    pairwise different, so that no URL is requested twice.  In the
    two-hop cycle where [a] designates [b] and [b] designates [a], the
    requests are the one for [a] then, if the files of [a] could be
    written, the one for [b]; every file written is in the directory of
    [a] or in the one of [b]; and a run that returns ends with the notice
    that the call on [a] is skipped.  The run is known event by event:
    when the two contracts are written, it returns after the request and
    the files of [a], the request and the files of [b], and the notice
    that [a] is skipped, with [a] and [b] visited; when the writer fails
    on [b], or already on [a], the run ends there with that error. *)
Theorem download_recursive_terminates
    (U : gset string) (chainid : Z) (apikey : string)
    (save_abi save_metadata : bool) (inc exc : option (gset string)) :
  let call fuel address outdir _visited :=
    download_contract_source_recursive json_loads json_dumps requests_get repr
      fuel address chainid outdir apikey save_abi save_metadata inc exc _visited in
  let url a := _API_URL_TMPL chainid a apikey in
  proxy_graph requests_get chainid apikey U →
  (∀ (fuel : nat) address outdir _visited,
     lower address ∈ U →
     size (U ∖ default ∅ _visited) < fuel →
     ∃ r visited' evs new,
       call fuel address outdir _visited = Done r visited' evs
       ∧ (∀ fuel' : nat, (fuel ≤ fuel')%nat →
            call fuel' address outdir _visited = Done r visited' evs)
       ∧ default ∅ _visited ⊆ visited'
       ∧ lower address ∈ visited'
       ∧ fetches evs = map url new
       ∧ NoDup new
       ∧ (∀ x, x ∈ new → (x ∉ default ∅ _visited) ∧ (x ∈ visited'))
       ∧ NoDup (fetches evs))
  ∧ (∀ fuel address a b outdir kvA kvB evsA evsB,
       lower address = a →
       fetch_source requests_get a chainid apikey = (Ok (JDict kvA), evsA) →
       proxy_target kvA b →
       fetch_source requests_get b chainid apikey = (Ok (JDict kvB), evsB) →
       proxy_target kvB a →
       a ≠ b →
       let dirA := contract_dir repr outdir kvA a in
       let dirB := contract_dir repr (pjoin dirA ("implementation-" +:+ b)) kvB b in
       let writeA := write_sources json_loads json_dumps repr (JDict kvA) dirA
                                   save_abi save_metadata inc exc in
       let writeB := write_sources json_loads json_dumps repr (JDict kvB) dirB
                                   save_abi save_metadata inc exc in
       let fetched x :=
         [Print ("[=] Downloading contract " +:+ x
                 +:+ " (chain " +:+ pretty chainid +:+ ")");
          HttpGet (url x)] in
       let detected x :=
         Print ("[=] Detected proxy contract. Downloading implementation at "
                +:+ x) in
       (∃ r visited' evs,
          call (S (S (S fuel))) address outdir None = Done r visited' evs
          ∧ (fetches evs = [url a] ∨ fetches evs = [url a; url b])
          ∧ (∀ p c, WriteText p c ∈ evs →
                    ∃ name, p = pjoin dirA name ∨ p = pjoin dirB name)
          ∧ (r = Ok tt →
             fetches evs = [url a; url b] ∧ visited' = {[a; b]}
             ∧ last evs = Some (Print ("[!] Already downloaded " +:+ a
                                       +:+ ", skipping to avoid cycle"))))
       ∧ (∀ evsA2 evsB2,
            writeA = (Ok tt, evsA2) → writeB = (Ok tt, evsB2) →
            call (S (S (S fuel))) address outdir None
            = Done (Ok tt) {[a; b]}
                   (fetched a ++ evsA2 ++ [detected b] ++ fetched b ++ evsB2
                    ++ [detected a;
                        Print ("[!] Already downloaded " +:+ a
                               +:+ ", skipping to avoid cycle")]))
       ∧ (∀ evsA2 e evsB2,
            writeA = (Ok tt, evsA2) → writeB = (Raise e, evsB2) →
            call (S (S (S fuel))) address outdir None
            = Done (Raise e) {[a; b]}
                   (fetched a ++ evsA2 ++ [detected b] ++ fetched b ++ evsB2))
       ∧ (∀ e evsA2,
            writeA = (Raise e, evsA2) →
            call (S (S (S fuel))) address outdir None
            = Done (Raise e) {[a]} (fetched a ++ evsA2))).
Proof.
  intros call url HU. split.
  - intros fuel address outdir _visited Ha Hsize. subst call. cbv beta.
    assert (∀ n, download_contract_source_recursive json_loads json_dumps
                   requests_get repr n address chainid outdir apikey save_abi
                   save_metadata inc exc _visited
                 = download_contract_source_recursive json_loads json_dumps
                     requests_get repr n address chainid outdir apikey save_abi
                     save_metadata inc exc (Some (default ∅ _visited))) as Hsome.
    { intros n. destruct _visited; [done|apply download_recursive_None]. }
    destruct (download_recursive_total U chainid apikey save_abi save_metadata
                inc exc HU fuel address outdir (default ∅ _visited) Ha Hsize)
      as (r & visited' & evs & new & Heq & Hsub & Hfe & Hnd & Hnew & Hin).
    exists r, visited', evs, new. rewrite Hsome. split; [done|]. split.
    { intros fuel' Hle. rewrite Hsome.
      by apply (download_recursive_fuel_mono _ _ _ _ _ _ fuel). }
    repeat (split; [done|]).
    rewrite Hfe.
    assert (Inj (=) (=) url) as Hinj by (intros x y; apply _API_URL_TMPL_inj).
    by apply (NoDup_fmap_2 url).
  - intros fuel address a b outdir kvA kvB evsA evsB Hlow HfA HtA HfB HtB Hab.
    subst call. cbv beta zeta. rewrite <- download_recursive_lower, Hlow.
    split.
    + by apply (download_recursive_two_hop fuel a b chainid outdir apikey
                  save_abi save_metadata inc exc kvA kvB evsA evsB).
    + by apply (download_recursive_two_hop_runs fuel a b chainid outdir apikey
                  save_abi save_metadata inc exc kvA kvB evsA evsB).
Qed.

(** C8: a call on an address whose lower-cased form is already in the
    visited set returns at once: no request, no file, the set as it was,
    and the skip notice as only event. *)
Theorem download_recursive_skips_visited
    (fuel : nat) (address : string) (chainid : Z) (outdir : path)
    (apikey : string) (save_abi save_metadata : bool)
    (inc exc : option (gset string)) (visited : gset string) :
  lower address ∈ visited →
  download_contract_source_recursive json_loads json_dumps requests_get repr
    (S fuel) address chainid outdir apikey save_abi save_metadata inc exc
    (Some visited)
  = Done (Ok tt) visited
         [Print ("[!] Already downloaded " +:+ lower address
                 +:+ ", skipping to avoid cycle")].
Proof. apply download_recursive_skips_visited_eq. Qed.

End Downloader.

Lemma write_sources_no_source_witness :
  write_sources JsonText.json_loads JsonText.json_encode Sample.py_repr
    (JDict [("ContractName", JStr "Ghost"); ("SourceCode", JStr "")])
    ["out"] true true None None
  = (Raise NoSourceError, []).
Proof. apply write_sources_no_source. right. reflexivity. Defined.

Lemma download_recursive_skips_visited_witness :
  download_contract_source_recursive
    JsonText.json_loads JsonText.json_encode Sample.cycle_api Sample.py_repr
    1 Sample.addrA 1 ["out"] Sample.KEY true true None None
    (Some {[lower Sample.addrA]})
  = Done (Ok tt) {[lower Sample.addrA]}
         [Print ("[!] Already downloaded " +:+ lower Sample.addrA
                 +:+ ", skipping to avoid cycle")].
Proof.
  apply download_recursive_skips_visited.
  apply elem_of_singleton. reflexivity.
Defined.

(** ** The examples *)

(** [JsonText.json_loads] follows the JSON grammar: after an opening
    brace it wants a key or the closing brace. *)
Lemma json_loads_rejects_two_braces s w :
  JsonText.json_loads s = Decoded w → startswith s "{{" = false.
Proof.
  destruct (startswith s "{{") eqn:H; [|done].
  apply startswith_cons in H as (r & -> & H).
  apply startswith_cons in H as (r' & -> & _).
  unfold JsonText.json_loads. simpl. by destruct (String.length r').
Qed.

Lemma write_sources_single_file_witness :
  ∃ r extra,
    write_sources JsonText.json_loads JsonText.json_encode Sample.py_repr
                  (JDict Sample.recordA) ["out"] true true None None
    = (r, [MkdirParents (pjoin ["out"] ("Proxy" +:+ ".sol"));
           WriteText (pjoin ["out"] ("Proxy" +:+ ".sol"))
                     "pragma solidity ^0.8.0; contract Proxy {}";
           Shown (pjoin ["out"] ("Proxy" +:+ ".sol"))] ++ extra)
    ∧ (∀ p c, WriteText p c ∈ extra →
              p = pjoin ["out"] "abi.json" ∨ p = pjoin ["out"] "contract_metadata.json")
    ∧ (true = false → true = false → r = Ok tt ∧ extra = []).
Proof.
  apply write_sources_single_file.
  - reflexivity.
  - left. reflexivity.
  - left. split; [reflexivity|discriminate].
Defined.

Lemma write_sources_entry_names_witness :
  write_sources JsonText.json_loads JsonText.json_encode Sample.py_repr
    (JDict [("SourceCode", JStr Sample.pairs_blob)]) ["out"] false false None None
  = (Ok tt,
     List.concat
       (imap (λ k item,
                let p := pjoin ["out"] (entry_name (S k) item.1) in
                [MkdirParents p; WriteText p item.2; Shown p])
             [(Some "", "contract A {}"); (None, "contract B {}");
              (Some "C.sol", "contract C {}")])).
Proof.
  apply (write_sources_entry_names _ _ _ _ Sample.pairs_blob
           (JList [JList [JStr ""; JStr "contract A {}"];
                   JList [JNull; JDict [("content", JStr "contract B {}")]];
                   JList [JStr "C.sol"; JStr "contract C {}"]])).
  - reflexivity.
  - discriminate.
  - reflexivity.
  - vm_compute. reflexivity.
  - reflexivity.
Defined.

(** C3, as the specification has it, fails on the blob [{}]: the strict
    decode succeeds (with the empty object) and the parser raises the
    decode error all the same. *)
Lemma parse_empty_object_counterexample :
  is_single_file_contract "{}" = false
  ∧ JsonText.json_loads (bundle_text "{}") = Decoded (JDict [])
  ∧ ¬ (_parse_source_code_object JsonText.json_loads "{}" = Raise BundleDecodeError
       ↔ JsonText.json_loads (bundle_text "{}") = JSONDecodeError
         ∧ JsonText.json_loads (slice_1_m1 (bundle_text "{}")) = JSONDecodeError).
Proof.
  split; [reflexivity|]. split; [reflexivity|].
  intros [H _]. by destruct (H eq_refl) as [? _].
Qed.

(** The other ways out of the parser, on the sample decoder: the empty
    object ends in the decode error, an integer of 4301 digits in the
    [ValueError] of the decoder, and a bundle is parsed on. *)
Lemma parse_decode_error_iff_witness :
  _parse_source_code_object JsonText.json_loads "{}" = Raise BundleDecodeError
  ∧ JsonText.json_loads (bundle_text Sample.big_integer) = LoadsRaises ValueError
  ∧ _parse_source_code_object JsonText.json_loads Sample.big_integer
    = Raise (Builtin ValueError)
  ∧ _parse_source_code_object JsonText.json_loads Sample.pairs_blob
    = Ok (bundle_root
            (JList [JList [JStr ""; JStr "contract A {}"];
                    JList [JNull; JDict [("content", JStr "contract B {}")]];
                    JList [JStr "C.sol"; JStr "contract C {}"]])).
Proof.
  split; [|split; [|split]].
  - pose proof (parse_decode_error_iff JsonText.json_loads "{}") as H.
    cbv zeta in H. destruct H as (Hiff & _). apply Hiff. split.
    + right. exists (JDict []). split; reflexivity.
    + left. reflexivity.
  - vm_compute. reflexivity.
  - pose proof (parse_decode_error_iff JsonText.json_loads Sample.big_integer) as H.
    cbv zeta in H. destruct H as (_ & _ & _ & Hraises & _). apply Hraises.
    vm_compute. reflexivity.
  - pose proof (parse_decode_error_iff JsonText.json_loads Sample.pairs_blob) as H.
    cbv zeta in H. destruct H as (_ & Hfirst & _). apply Hfirst.
    + vm_compute. reflexivity.
    + reflexivity.
Defined.

Lemma parse_double_brace_wrapped_witness :
  _parse_source_code_object JsonText.json_loads ("{" +:+ Sample.bundleB +:+ "}")
  = _parse_source_code_object JsonText.json_loads Sample.bundleB
  ∧ (_parse_source_code_object JsonText.json_loads ("{" +:+ Sample.bundleB +:+ "}")
       ≫= _sources_to_map)
    = (_parse_source_code_object JsonText.json_loads Sample.bundleB ≫= _sources_to_map)
  ∧ (true = true →
     _parse_source_code_object JsonText.json_loads ("{" +:+ Sample.bundleB +:+ "}")
     = Ok (JDict [("contracts/Logic.sol", JDict [("content", JStr "contract Logic {}")]);
                  ("", JDict [("content", JStr "library L {}")])])).
Proof.
  apply (parse_double_brace_wrapped JsonText.json_loads Sample.bundleB
           (JDict [("language", JStr "Solidity");
                   ("sources",
                    JDict [("contracts/Logic.sol", JDict [("content", JStr "contract Logic {}")]);
                           ("", JDict [("content", JStr "library L {}")])])])).
  - exact json_loads_rejects_two_braces.
  - vm_compute. reflexivity.
  - reflexivity.
  - reflexivity.
Defined.

Lemma download_recursive_proxy_iff_witness :
  download_contract_source_recursive
    JsonText.json_loads JsonText.json_encode Sample.cycle_api Sample.py_repr
    3 Sample.addrA 1 ["out"] Sample.KEY false false None None (Some ∅)
  = after
      ((Print ("[=] Downloading contract " +:+ lower Sample.addrA
               +:+ " (chain " +:+ pretty 1%Z +:+ ")")
        :: [HttpGet (_API_URL_TMPL 1 (lower Sample.addrA) Sample.KEY)]
           ++ Sample.filesA)
       ++ [Print ("[=] Detected proxy contract. Downloading implementation at "
                  +:+ lower Sample.addrB)])
      (download_contract_source_recursive
         JsonText.json_loads JsonText.json_encode Sample.cycle_api Sample.py_repr
         2 (lower Sample.addrB) 1
         (pjoin Sample.dirA ("implementation-" +:+ lower Sample.addrB))
         Sample.KEY false false None None (Some (∅ ∪ {[lower Sample.addrA]}))).
Proof.
  pose proof (download_recursive_proxy_iff
                JsonText.json_loads JsonText.json_encode Sample.cycle_api
                Sample.py_repr 2 Sample.addrA 1 ["out"] Sample.KEY false false
                None None ∅ Sample.recordA
                [HttpGet (_API_URL_TMPL 1 (lower Sample.addrA) Sample.KEY)]) as H.
  cbv zeta in H. destruct H as [Hwritten _].
  - apply not_elem_of_empty.
  - vm_compute. reflexivity.
  - destruct (Hwritten Sample.filesA) as [Henters _].
    + vm_compute. reflexivity.
    + apply Henters.
      split; [reflexivity|]. exists Sample.addrB.
      split; [reflexivity|]. split; [discriminate|]. split; [|reflexivity].
      vm_compute. discriminate.
Defined.

(** C2, as the specification has it, fails on the record of a proxy that
    is not verified: the proxy flag is ["1"] and the implementation field
    holds a real address, yet the call ends with the error of the writer
    after its one request, and the implementation is not entered. *)
Lemma download_recursive_unverified_proxy_counterexample :
  fetch_source Sample.ghost_api (lower Sample.addrA) 1 Sample.KEY
  = (Ok (JDict Sample.recordG),
     [HttpGet (_API_URL_TMPL 1 (lower Sample.addrA) Sample.KEY)])
  ∧ proxy_target Sample.recordG (lower Sample.addrB)
  ∧ download_contract_source_recursive
      JsonText.json_loads JsonText.json_encode Sample.ghost_api Sample.py_repr
      3 Sample.addrA 1 ["out"] Sample.KEY false false None None (Some ∅)
    = Done (Raise NoSourceError) (∅ ∪ {[lower Sample.addrA]})
           [Print ("[=] Downloading contract " +:+ lower Sample.addrA
                   +:+ " (chain " +:+ pretty 1%Z +:+ ")");
            HttpGet (_API_URL_TMPL 1 (lower Sample.addrA) Sample.KEY)]
  ∧ download_contract_source_recursive
      JsonText.json_loads JsonText.json_encode Sample.ghost_api Sample.py_repr
      3 Sample.addrA 1 ["out"] Sample.KEY false false None None (Some ∅)
    ≠ after
        ([Print ("[=] Downloading contract " +:+ lower Sample.addrA
                 +:+ " (chain " +:+ pretty 1%Z +:+ ")");
          HttpGet (_API_URL_TMPL 1 (lower Sample.addrA) Sample.KEY)]
         ++ [Print ("[=] Detected proxy contract. Downloading implementation at "
                    +:+ lower Sample.addrB)])
        (download_contract_source_recursive
           JsonText.json_loads JsonText.json_encode Sample.ghost_api Sample.py_repr
           2 (lower Sample.addrB) 1
           (pjoin (contract_dir Sample.py_repr ["out"] Sample.recordG
                                (lower Sample.addrA))
                  ("implementation-" +:+ lower Sample.addrB))
           Sample.KEY false false None None (Some (∅ ∪ {[lower Sample.addrA]}))).
Proof.
  split; [vm_compute; reflexivity|]. split.
  { split; [reflexivity|]. exists Sample.addrB.
    split; [reflexivity|]. split; [discriminate|]. split; [|reflexivity].
    vm_compute. discriminate. }
  split; [vm_compute; reflexivity|].
  vm_compute. discriminate.
Qed.

(** The two addresses of [Sample.cycle_api] are a proxy graph. *)
Lemma cycle_api_graph :
  proxy_graph Sample.cycle_api 1 Sample.KEY
              {[lower Sample.addrA; lower Sample.addrB]}.
Proof.
  intros a b Ha (kv & evs & Hf & _ & s & Hs & _ & _ & ->).
  apply elem_of_union in Ha as [->%elem_of_singleton| ->%elem_of_singleton];
    vm_compute in Hf; injection Hf as <- _;
    vm_compute in Hs; injection Hs as <-.
  - apply elem_of_union_r, elem_of_singleton. reflexivity.
  - apply elem_of_union_l, elem_of_singleton. reflexivity.
Qed.

Lemma download_recursive_terminates_witness :
  (∃ r visited' evs new,
     download_contract_source_recursive
       JsonText.json_loads JsonText.json_encode Sample.cycle_api Sample.py_repr
       3 Sample.addrA 1 ["out"] Sample.KEY true true None (Some {["SourceCode"]}) None
     = Done r visited' evs
     ∧ (∀ fuel' : nat, (3 ≤ fuel')%nat →
          download_contract_source_recursive
            JsonText.json_loads JsonText.json_encode Sample.cycle_api
            Sample.py_repr fuel' Sample.addrA 1 ["out"] Sample.KEY true true None
            (Some {["SourceCode"]}) None
          = Done r visited' evs)
     ∧ default ∅ None ⊆ visited'
     ∧ lower Sample.addrA ∈ visited'
     ∧ fetches evs = map (λ a, _API_URL_TMPL 1 a Sample.KEY) new
     ∧ NoDup new
     ∧ (∀ x, x ∈ new → (x ∉ default ∅ (None : option (gset string))) ∧ (x ∈ visited'))
     ∧ NoDup (fetches evs))
  ∧ download_contract_source_recursive
      JsonText.json_loads JsonText.json_encode Sample.cycle_api Sample.py_repr
      3 Sample.addrA 1 ["out"] Sample.KEY true true None (Some {["SourceCode"]}) None
    = Done (Ok tt) {[lower Sample.addrA; lower Sample.addrB]}
           ([Print ("[=] Downloading contract " +:+ lower Sample.addrA
                    +:+ " (chain " +:+ pretty 1%Z +:+ ")");
             HttpGet (_API_URL_TMPL 1 (lower Sample.addrA) Sample.KEY)]
            ++ Sample.filesA_all
            ++ [Print ("[=] Detected proxy contract. Downloading implementation at "
                       +:+ lower Sample.addrB)]
            ++ [Print ("[=] Downloading contract " +:+ lower Sample.addrB
                       +:+ " (chain " +:+ pretty 1%Z +:+ ")");
                HttpGet (_API_URL_TMPL 1 (lower Sample.addrB) Sample.KEY)]
            ++ Sample.filesB_all
            ++ [Print ("[=] Detected proxy contract. Downloading implementation at "
                       +:+ lower Sample.addrA);
                Print ("[!] Already downloaded " +:+ lower Sample.addrA
                       +:+ ", skipping to avoid cycle")])
  ∧ WriteText (pjoin Sample.dirA "Proxy.sol")
              "pragma solidity ^0.8.0; contract Proxy {}" ∈ Sample.filesA_all
  ∧ WriteText (pjoin Sample.dirB "contracts/Logic.sol") "contract Logic {}"
    ∈ Sample.filesB_all
  ∧ WriteText (pjoin Sample.dirB "Contract_2.sol") "library L {}"
    ∈ Sample.filesB_all.
Proof.
  pose proof (download_recursive_terminates
                JsonText.json_loads JsonText.json_encode Sample.cycle_api
                Sample.py_repr {[lower Sample.addrA; lower Sample.addrB]}
                1 Sample.KEY true true None (Some {["SourceCode"]})
                cycle_api_graph) as [Hends Hcycle].
  split; [|split].
  - apply Hends.
    + apply elem_of_union_l, elem_of_singleton. reflexivity.
    + vm_compute. lia.
  - destruct (Hcycle 0%nat Sample.addrA (lower Sample.addrA) (lower Sample.addrB)
                ["out"] Sample.recordA Sample.recordB
                [HttpGet (_API_URL_TMPL 1 (lower Sample.addrA) Sample.KEY)]
                [HttpGet (_API_URL_TMPL 1 (lower Sample.addrB) Sample.KEY)])
      as (_ & Hwritten & _).
    + reflexivity.
    + vm_compute. reflexivity.
    + split; [reflexivity|]. exists Sample.addrB.
      split; [reflexivity|]. split; [discriminate|]. split; [|reflexivity].
      vm_compute. discriminate.
    + vm_compute. reflexivity.
    + split; [reflexivity|]. exists Sample.addrA.
      split; [reflexivity|]. split; [discriminate|]. split; [|reflexivity].
      vm_compute. discriminate.
    + vm_compute. discriminate.
    + apply Hwritten; vm_compute; reflexivity.
  - repeat split; apply list_elem_of_In; vm_compute; tauto.
Defined.

(** * Further properties *)

(** ** More on strings *)

#[local] Arguments String.append !_ _ / : simpl nomatch.

Lemma lstrip_stripped s : lstrip s = EmptyString ∨ ∃ c r, lstrip s = String c r ∧ isspace c = false.
Proof.
  destruct (lstrip s) as [|c r] eqn:H; [by left|right].
  exists c, r. split; [done|]. by apply (lstrip_head s c r).
Qed.

Lemma lstrip_idemp s : lstrip (lstrip s) = lstrip s.
Proof.
  destruct (lstrip_stripped s) as [->|(c & r & -> & Hc)]; [done|].
  by apply lstrip_keeps.
Qed.

Lemma lstrip_blank pre s : isblank pre = true → lstrip (pre +:+ s) = lstrip s.
Proof.
  induction pre as [|c pre IH]; simpl; [done|].
  intros [Hc Hpre]%andb_true_iff. rewrite Hc. by apply IH.
Qed.

Lemma isblank_lstrip s : isblank s = true → lstrip s = EmptyString.
Proof.
  induction s as [|c s IH]; simpl; [done|].
  intros [Hc Hs]%andb_true_iff. rewrite Hc. by apply IH.
Qed.

Lemma lstrip_app s t :
  lstrip (s +:+ t) = if isblank s then lstrip t else lstrip s +:+ t.
Proof.
  induction s as [|c s IH]; simpl; [done|].
  destruct (isspace c); simpl; [exact IH|done].
Qed.

Lemma rstrip_blank s post : isblank post = true → rstrip (s +:+ post) = rstrip s.
Proof.
  intros Hpost. induction s as [|c s IH]; simpl.
  - induction post as [|d post IHp]; simpl; [done|].
    simpl in Hpost. apply andb_true_iff in Hpost as [Hd Hpost].
    by rewrite (IHp Hpost), Hd.
  - by rewrite IH.
Qed.

Lemma rstrip_idemp s : rstrip (rstrip s) = rstrip s.
Proof.
  induction s as [|c s IH]; simpl; [done|].
  destruct (rstrip s) as [|d r] eqn:Hr.
  - destruct (isspace c) eqn:Hc; simpl; [done|]. by rewrite Hc.
  - cbn [rstrip]. cbn [rstrip] in IH. by rewrite IH.
Qed.

(** [rstrip] keeps the first character of what it leaves. *)
Lemma rstrip_head s :
  rstrip s = EmptyString ∨ ∃ c r r', s = String c r ∧ rstrip s = String c r'.
Proof.
  destruct s as [|c s]; simpl; [by left|].
  destruct (rstrip s) as [|d r'].
  - destruct (isspace c); [by left|right]. by exists c, s, EmptyString.
  - right. by exists c, s, (String d r').
Qed.

Lemma lstrip_rstrip_lstrip s : lstrip (rstrip (lstrip s)) = rstrip (lstrip s).
Proof.
  destruct (rstrip_head (lstrip s)) as [->|(c & r & r' & Hs & ->)]; [done|].
  apply lstrip_keeps. by apply (lstrip_head s c r).
Qed.

Lemma strip_idemp s : strip (strip s) = strip s.
Proof. unfold strip. by rewrite lstrip_rstrip_lstrip, rstrip_idemp. Qed.

Lemma strip_blank_padding pre s post :
  isblank pre = true → isblank post = true →
  strip (pre +:+ s +:+ post) = strip s.
Proof.
  intros Hpre Hpost. unfold strip. rewrite lstrip_blank by done.
  rewrite lstrip_app. destruct (isblank s) eqn:Hs.
  - by rewrite (isblank_lstrip post), (isblank_lstrip s).
  - by apply rstrip_blank.
Qed.

(** ** More on the bundle parser *)

(** X1: the test for a leading carriage return and line feed never
    decides: a blob is a single file exactly when, left-stripped, it
    starts with [pragma], [//] or [/*]. *)
Theorem is_single_file_contract_three_prefixes (src : string) :
  is_single_file_contract src
  = startswith (lstrip src) "pragma" || startswith (lstrip src) "//"
    || startswith (lstrip src) "/*".
Proof.
  unfold is_single_file_contract. cbv zeta.
  by rewrite lstrip_not_CRLF, orb_false_r.
Qed.

Section MoreParser.

Context (json_loads : string → loads_result).

(** X2: blanks around a blob change neither the single-file test nor what
    the parser makes of the blob. *)
Theorem parse_blank_padding (pre blob post : string) :
  isblank pre = true →
  isblank post = true →
  is_single_file_contract (pre +:+ blob) = is_single_file_contract blob
  ∧ _parse_source_code_object json_loads (pre +:+ blob +:+ post)
    = _parse_source_code_object json_loads blob.
Proof.
  intros Hpre Hpost. split.
  - unfold is_single_file_contract. cbv zeta. by rewrite lstrip_blank.
  - rewrite !_parse_source_code_object_eq. unfold bundle_text. cbv zeta.
    by rewrite strip_blank_padding.
Qed.

End MoreParser.

Section MoreParser2.

Context (json_loads : string → loads_result).

(** X3: when the strict decode gives an object with a ["sources"] key, the
    parser returns the value under that key, whatever it is and whatever
    the other keys are. *)
Theorem parse_sources_key (blob : string) (kv : list (string * json)) (v : json) :
  json_loads (bundle_text blob) = Decoded (JDict kv) →
  dict_get kv "sources" = Some v →
  _parse_source_code_object json_loads blob = Ok v.
Proof.
  intros Hloads Hsources. rewrite _parse_source_code_object_eq.
  unfold _json_or_none. rewrite Hloads.
  assert (truthy (JDict kv) = true) as Hkv by (by destruct kv).
  simpl. rewrite Hkv. simpl. rewrite Hkv. unfold bundle_root.
  by rewrite Hsources.
Qed.

End MoreParser2.

(** ** More on the normalisation of bundles *)

#[local] Arguments String.append : simpl never.

Lemma items_set_fresh out name value :
  (∀ x, x ∈ out → key_eqb x.1 name = false) →
  items_set out name value = out ++ [(name, value)].
Proof.
  induction out as [|[k v] out IH]; intros Hfresh; [done|]. simpl.
  pose proof (Hfresh (k, v) ltac:(left)) as Hk. simpl in Hk. rewrite Hk.
  rewrite IH; [done|].
  intros x Hx. apply Hfresh. by right.
Qed.

Lemma pairs_to_map_fresh (kv : list (string * json)) out :
  NoDup kv.*1 →
  (∀ k m, (k, JDict m) ∈ kv → is_Some (dict_get m "content")) →
  (∀ x k, x ∈ out → k ∈ kv.*1 → key_eqb x.1 (JStr k) = false) →
  pairs_to_map (map pair_of kv) out
  = Ok (out ++ map (λ item, (JStr item.1, content_of item.2)) kv).
Proof.
  revert out. induction kv as [|[k meta] kv IH]; intros out Hnd Hcontent Hfresh.
  { simpl. by rewrite app_nil_r. }
  apply NoDup_cons in Hnd as [Hk Hnd].
  cbn [map pairs_to_map pair_of unpack_pair fst snd mbind res_bind].
  assert (match meta with
          | JDict _ => py_getitem meta "content"
          | _ => Ok meta
          end = Ok (content_of meta)) as ->.
  { destruct meta as [| | | | |m]; try done. simpl.
    destruct (Hcontent k m) as [c Hc]; [left|]. by rewrite Hc. }
  unfold py_setitem. cbn [hashable mbind res_bind].
  rewrite items_set_fresh by (intros x Hx; apply Hfresh; [done|left]).
  rewrite IH; [by rewrite <- app_assoc|done| |].
  - intros k' m Hin. apply (Hcontent k' m). by right.
  - intros x k' [Hx| ->%list_elem_of_singleton]%elem_of_app Hk'.
    + apply Hfresh; [done|by right].
    + simpl. apply String.eqb_neq. by intros ->.
Qed.

(** X4: the two forms of a bundle agree.  The list of the pairs
    [[name, meta]] of an object is normalised like the object itself when
    the names are pairwise different and every [meta] that is an object
    has a ["content"] key. *)
Theorem sources_to_map_forms_agree (kv : list (string * json)) :
  NoDup kv.*1 →
  (∀ k m, (k, JDict m) ∈ kv → is_Some (dict_get m "content")) →
  _sources_to_map (JList (map (λ item, JList [JStr item.1; item.2]) kv))
  = _sources_to_map (JDict kv).
Proof.
  intros Hnd Hcontent. unfold _sources_to_map.
  change (map (λ item, JList [JStr item.1; item.2]) kv) with (map pair_of kv).
  rewrite (pairs_to_map_fresh kv []); [|done|done|by intros x k ?%elem_of_nil].
  f_equal. simpl. apply map_ext. by intros [k meta].
Qed.

(** What the list form stores for the pair [[name, meta]]. *)
Lemma items_set_keys out name value x :
  x ∈ items_set out name value → x.1 ∈ out.*1 ∨ x.1 = name.
Proof.
  induction out as [|[k v] out IH]; simpl.
  - intros ->%list_elem_of_singleton. by right.
  - destruct (key_eqb k name).
    + intros [->|Hx]%elem_of_cons; left; [left|right].
      by apply (list_elem_of_fmap_2 fst) in Hx.
    + intros [->|Hx]%elem_of_cons; [left; left|].
      destruct (IH Hx) as [?|?]; [left; by right|by right].
Qed.

Lemma items_set_distinct out name value :
  names_distinct out → names_distinct (items_set out name value).
Proof.
  induction out as [|[k v] out IH]; simpl; [by intros _; split; [intros ? ?%elem_of_nil|]|].
  intros [Hk Hout]. destruct (key_eqb k name) eqn:Hkn; simpl; [done|].
  split; [|by apply IH].
  intros k' ([k'' v'] & -> & Hx)%list_elem_of_fmap.
  destruct (items_set_keys _ _ _ _ Hx) as [?| ->]; [by apply Hk|done].
Qed.

Lemma pairs_to_map_distinct l out items :
  names_distinct out → pairs_to_map l out = Ok items → names_distinct items.
Proof.
  revert out. induction l as [|e l IH]; intros out Hout; simpl.
  { by intros [= <-]. }
  destruct (unpack_pair e) as [[name meta]|]; simpl; [|done].
  destruct (match meta with JDict _ => py_getitem meta "content" | _ => Ok meta end)
    as [value|]; simpl; [|done].
  unfold py_setitem. destruct (hashable name); simpl; [|done].
  apply IH. by apply items_set_distinct.
Qed.

Lemma names_distinct_lookup items i j a b :
  names_distinct items → (i < j)%nat →
  items !! i = Some a → items !! j = Some b → key_eqb a.1 b.1 = false.
Proof.
  revert i j. induction items as [|[k v] items IH]; intros i j Hd Hij Hi Hj; [done|].
  destruct Hd as [Hk Hd]. destruct j as [|j]; [lia|]. simpl in Hj.
  destruct i as [|i]; simpl in Hi.
  - injection Hi as <-. simpl. apply Hk.
    apply (list_elem_of_fmap_2 fst), list_elem_of_lookup. eauto.
  - apply (IH i j); [done|lia|done|done].
Qed.

(** X5: the list form never yields two entries with the same name: in
    what [_sources_to_map] returns for a list, no name equals, as a dict
    key, the name of a later entry. *)
Theorem sources_to_map_list_distinct
    (l : list json) (items : list (json * json)) (i j : nat) (a b : json * json) :
  _sources_to_map (JList l) = Ok items →
  (i < j)%nat →
  items !! i = Some a →
  items !! j = Some b →
  key_eqb a.1 b.1 = false.
Proof.
  intros Hmap. apply names_distinct_lookup.
  by apply (pairs_to_map_distinct l []).
Qed.

Lemma pairs_to_map_app l1 l2 out :
  pairs_to_map (l1 ++ l2) out = pairs_to_map l1 out ≫= pairs_to_map l2.
Proof.
  revert out. induction l1 as [|e l1 IH]; intros out; [done|]. simpl.
  destruct (unpack_pair e) as [[name meta]|]; simpl; [|done].
  destruct (match meta with JDict _ => py_getitem meta "content" | _ => Ok meta end)
    as [value|]; simpl; [|done].
  destruct (py_setitem out name value) as [out'|]; simpl; [|done].
  apply IH.
Qed.

Lemma key_eqb_refl name : hashable name = true → key_eqb name name = true.
Proof.
  destruct name as [|b|n|s| |]; simpl; try done.
  - by destruct b.
  - intros _. apply Z.eqb_refl.
  - intros _. apply String.eqb_refl.
Qed.

Lemma items_get_set out name value :
  hashable name = true → items_get (items_set out name value) name = Some value.
Proof.
  intros Hname. induction out as [|[k v] out IH]; simpl.
  - by rewrite key_eqb_refl.
  - destruct (key_eqb k name) eqn:Hk; simpl; by rewrite Hk.
Qed.

(** X6: in the list form the last pair of a name decides: what
    [_sources_to_map] returns holds, under the name of the last pair, the
    content of that pair. *)
Theorem sources_to_map_list_last_wins
    (l : list json) (name meta : json) (items : list (json * json)) :
  _sources_to_map (JList (l ++ [JList [name; meta]])) = Ok items →
  items_get items name = Some (content_of meta).
Proof.
  unfold _sources_to_map. rewrite pairs_to_map_app.
  destruct (pairs_to_map l []) as [out|]; simpl; [|done].
  assert (match meta with
          | JDict _ => py_getitem meta "content"
          | _ => Ok meta
          end = Raise (Builtin KeyError)
          ∨ match meta with
            | JDict _ => py_getitem meta "content"
            | _ => Ok meta
            end = Ok (content_of meta)) as [-> | ->]; [|done|].
  { destruct meta as [| | | | |m]; try by right. simpl.
    destruct (dict_get m "content"); [by right|by left]. }
  simpl. unfold py_setitem. destruct (hashable name) eqn:Hname; simpl; [|done].
  intros [= <-]. by apply items_get_set.
Qed.

(** ** More on the source writer *)

#[local] Arguments is_single_file_contract : simpl never.
#[local] Arguments _parse_source_code_object : simpl never.
#[local] Arguments _sources_to_map : simpl never.
#[local] Arguments truthy : simpl never.
#[local] Arguments pretty : simpl never.
#[local] Arguments side_files : simpl never.

Lemma truthy_str s : s ≠ "" → truthy (JStr s) = true.
Proof. intros H. unfold truthy. apply String.eqb_neq in H. by rewrite H. Qed.

Lemma write_entries_bad_content outdir (good : list (option string * string))
    name code rest i :
  name ≠ "" →
  (∀ s, code ≠ JStr s) →
  write_entries outdir i (map bundle_item good ++ (JStr name, code) :: rest)
  = (Raise (Builtin TypeError),
     List.concat
       (imap (λ k item,
                file_events (pjoin outdir (entry_name (i + k) item.1)) item.2)
             good)
     ++ [MkdirParents (pjoin outdir name)]).
Proof.
  intros Hname Hcode. revert i.
  induction good as [|[n c] good IH]; intros i.
  - cbn [map app write_entries imap List.concat]. unfold py_or.
    rewrite truthy_str by done. simpl.
    destruct code; try done. by destruct (Hcode s).
  - cbn [map app write_entries bundle_item fst snd imap List.concat].
    rewrite IH. rewrite Nat.add_0_r.
    assert (py_pjoin outdir
              (py_or (from_option JStr JNull n)
                     (JStr ("Contract_" +:+ pretty i +:+ ".sol")))
            = Ok (pjoin outdir (entry_name i n))) as ->.
    { destruct n as [n|]; [|done]. unfold py_or, entry_name. simpl.
      destruct (decide (n = "")) as [->|Hn]; [done|]. by rewrite truthy_str. }
    simpl. do 5 f_equal. f_equal. apply imap_ext. intros k item _. simpl.
    by rewrite Nat.add_succ_r.
Qed.

Section MoreWriter.

Context (json_loads : string → loads_result) (json_dumps : json → string)
        (repr : json → string).

(** X7: a bundle that cannot be parsed or normalised leaves nothing
    behind: [write_sources] raises the error of the parser or of
    [_sources_to_map] before any directory or file is touched, and the
    side files are not written either. *)
Theorem write_sources_bundle_error
    (kv : list (string * json)) (blob : string) (e : error) (outdir : path)
    (save_abi save_metadata : bool) (inc exc : option (gset string)) :
  dict_get kv "SourceCode" = Some (JStr blob) →
  blob ≠ "" →
  is_single_file_contract blob = false →
  (_parse_source_code_object json_loads blob ≫= _sources_to_map) = Raise e →
  write_sources json_loads json_dumps repr (JDict kv) outdir
                save_abi save_metadata inc exc
  = (Raise e, []).
Proof.
  intros Hsrc Hblob Hsingle Herr.
  rewrite (write_sources_with_source _ _ _ _ _ _ _ _ _ _ Hsrc (truthy_str _ Hblob)).
  rewrite Hsingle.
  destruct (_parse_source_code_object json_loads blob) as [parsed|e'];
    simpl in *.
  - by rewrite Herr.
  - by injection Herr as ->.
Qed.

(** X8: an entry whose content is not a text stops the writer where it
    stands: the entries before it are written, the directory of the bad
    entry is created, a [TypeError] is raised, and neither the later
    entries nor the side files are written. *)
Theorem write_sources_stops_at_bad_content
    (kv : list (string * json)) (blob : string) (parsed : json)
    (good : list (option string * string)) (name : string) (code : json)
    (rest : list (json * json)) (outdir : path)
    (save_abi save_metadata : bool) (inc exc : option (gset string)) :
  dict_get kv "SourceCode" = Some (JStr blob) →
  blob ≠ "" →
  is_single_file_contract blob = false →
  _parse_source_code_object json_loads blob = Ok parsed →
  _sources_to_map parsed = Ok (map bundle_item good ++ (JStr name, code) :: rest) →
  name ≠ "" →
  (∀ s, code ≠ JStr s) →
  write_sources json_loads json_dumps repr (JDict kv) outdir
                save_abi save_metadata inc exc
  = (Raise (Builtin TypeError),
     List.concat
       (imap (λ k item,
                let p := pjoin outdir (entry_name (S k) item.1) in
                [MkdirParents p; WriteText p item.2; Shown p])
             good)
     ++ [MkdirParents (pjoin outdir name)]).
Proof.
  intros Hsrc Hblob Hsingle Hparse Hmap Hname Hcode.
  rewrite (write_sources_with_source _ _ _ _ _ _ _ _ _ _ Hsrc (truthy_str _ Hblob)).
  rewrite Hsingle, Hparse. simpl. rewrite Hmap. simpl.
  by rewrite write_entries_bad_content.
Qed.

(** X9: with both options set and a single-file record whose ABI is a
    text or absent, the writer produces the source file, then [abi.json]
    with the ABI as it came (empty when absent), then
    [contract_metadata.json] with the serialised filtered record, in that
    order, and returns. *)
Theorem write_sources_all_files
    (kv : list (string * json)) (blob name abi : string) (outdir : path)
    (inc exc : option (gset string)) :
  dict_get kv "SourceCode" = Some (JStr blob) →
  is_single_file_contract blob = true →
  dict_get kv "ContractName" = Some (JStr name) ∧ name ≠ ""
  ∨ (dict_get kv "ContractName" = None
     ∨ dict_get kv "ContractName" = Some (JStr "")) ∧ name = "Contract" →
  dict_get kv "ABI" = Some (JStr abi) ∨ dict_get kv "ABI" = None ∧ abi = "" →
  write_sources json_loads json_dumps repr (JDict kv) outdir true true inc exc
  = (Ok tt,
     file_events (pjoin outdir (name +:+ ".sol")) blob
     ++ file_events (pjoin outdir "abi.json") abi
     ++ file_events (pjoin outdir "contract_metadata.json")
                    (json_dumps (JDict (filter_metadata kv inc exc)))).
Proof.
  intros Hsrc Hsingle Hname Habi.
  rewrite (write_sources_with_source _ _ _ _ _ _ _ _ _ _ Hsrc
             (single_file_nonempty _ Hsingle)).
  rewrite Hsingle.
  assert (py_format repr
            (py_or (default JNull (dict_get kv "ContractName")) (JStr "Contract"))
          = name) as Hn.
  { destruct Hname as [[-> Hne]|[[-> | ->] ->]]; try done.
    unfold py_or. simpl. by rewrite truthy_str. }
  assert (default (JStr "") (dict_get kv "ABI") = JStr abi) as Ha.
  { by destruct Habi as [-> | [-> ->]]. }
  unfold side_files, py_get. simpl. simpl in Hn, Ha. by rewrite Hn, Ha.
Qed.

End MoreWriter.

(** ** More on the metadata filter *)

Lemma dict_get_filter (P : string → Prop) `{!∀ k, Decision (P k)}
    (kv : list (string * json)) (k : string) :
  dict_get (filter (λ item, P item.1) kv) k
  = if decide (P k) then dict_get kv k else None.
Proof.
  induction kv as [|[k' v] kv IH]; simpl.
  - by destruct (decide (P k)).
  - rewrite filter_cons. simpl.
    destruct (String.eqb_spec k' k) as [->|Hk].
    + destruct (decide (P k)); simpl; [by rewrite String.eqb_refl|exact IH].
    + destruct (decide (P k')); simpl; [|exact IH].
      apply String.eqb_neq in Hk. by rewrite Hk.
Qed.

(** X10: looking a key up in the filtered record: with an include set
    the key is found exactly when it is in the set, with an exclude set
    alone exactly when it is not in it, and a key that is found has the
    value it has in the record. *)
Theorem filter_metadata_lookup
    (kv : list (string * json)) (inc exc : option (gset string)) (k : string) :
  dict_get (filter_metadata kv inc exc) k
  = match inc, exc with
    | Some keys, _ => if decide (k ∈ keys) then dict_get kv k else None
    | None, Some keys => if decide (k ∈ keys) then None else dict_get kv k
    | None, None => dict_get kv k
    end.
Proof.
  destruct inc as [keys|]; [|destruct exc as [keys|]]; simpl; [| |done].
  - exact (dict_get_filter (λ k, k ∈ keys) kv k).
  - etrans; [exact (dict_get_filter (λ k, k ∉ keys) kv k)|].
    destruct (decide (k ∈ keys)); [rewrite decide_False by auto|rewrite decide_True];
      done.
Qed.

(** X11: the filter never adds, changes or reorders an entry: what it
    returns is the record with some entries left out. *)
Theorem filter_metadata_sublist
    (kv : list (string * json)) (inc exc : option (gset string)) :
  filter_metadata kv inc exc `sublist_of` kv.
Proof.
  destruct inc as [keys|]; [|destruct exc as [keys|]]; simpl;
    try apply sublist_filter. done.
Qed.

(** ** More on the downloader *)

#[local] Arguments write_sources : simpl never.
#[local] Arguments fetch_source : simpl never.
#[local] Arguments contract_dir : simpl never.

Lemma event_under_weaken root root' e :
  root `prefix_of` root' → event_under root' e → event_under root e.
Proof. intros H. destruct e; simpl; try done; by etrans. Qed.

Lemma file_event_under root dir e :
  root `prefix_of` dir → file_event_in dir e → event_under root e.
Proof.
  intros H. destruct e; simpl; try done; intros [name ->];
    by apply prefix_app_r.
Qed.

Lemma py_eq_str_true x s : py_eq_str x s = true ↔ x = JStr s.
Proof.
  destruct x; simpl; try (split; [done|discriminate]).
  rewrite String.eqb_eq. split; [by intros ->|by intros [= ->]].
Qed.

Section MoreDownloader.

Context (json_loads : string → loads_result) (json_dumps : json → string)
        (requests_get : string → http_reply) (repr : json → string).

(** X12: [fetch_source] returns a record in one case only: the key is
    configured, one request was sent to the URL of the template, the body
    is an object whose status is ["1"], and the record is the first
    element of its result. *)
Theorem fetch_source_ok_iff
    (address : string) (chainid : Z) (apikey : string) (r : json) (evs : trace) :
  fetch_source requests_get address chainid apikey = (Ok r, evs)
  ↔ apikey ≠ "" ∧ apikey ≠ "YOUR_ETHERSCAN_V2_API_KEY"
    ∧ evs = [HttpGet (_API_URL_TMPL chainid address apikey)]
    ∧ ∃ kv result,
        requests_get (_API_URL_TMPL chainid address apikey) = Body (JDict kv)
        ∧ dict_get kv "status" = Some (JStr "1")
        ∧ dict_get kv "result" = Some result
        ∧ py_getitem0 result = Ok r.
Proof.
  unfold fetch_source, truthy.
  destruct (String.eqb_spec apikey "") as [->|Hne]; simpl.
  { split; [done|]. by intros [? _]. }
  destruct (String.eqb_spec apikey "YOUR_ETHERSCAN_V2_API_KEY") as [->|Hph]; simpl.
  { split; [done|]. by intros (_ & ? & _). }
  destruct (requests_get _) as [e| |data] eqn:Hreq; simpl.
  1,2: split; [done|]; by intros (_ & _ & _ & kv & result & ? & _).
  destruct data as [| | | | |kv]; simpl.
  1-5: split; [done|]; by intros (_ & _ & _ & kv & result & ? & _).
  destruct (py_eq_str (default JNull (dict_get kv "status")) "1") eqn:Hst; simpl.
  - apply py_eq_str_true in Hst.
    destruct (dict_get kv "status") as [st|] eqn:Hstatus; simpl in Hst; [|done].
    subst st.
    destruct (dict_get kv "result") as [result|] eqn:Hres; simpl.
    + destruct (py_getitem0 result) as [r'|e'] eqn:H0; simpl.
      * split.
        -- intros [= <- <-]. do 3 (split; [done|]). by exists kv, result.
        -- intros (_ & _ & -> & kv' & result' & [= <-] & _ & Hr' & Hg).
           rewrite Hres in Hr'. injection Hr' as <-. rewrite H0 in Hg.
           by injection Hg as <-.
      * split; [done|].
        intros (_ & _ & _ & kv' & result' & [= <-] & _ & Hr' & Hg).
        rewrite Hres in Hr'. injection Hr' as <-. by rewrite H0 in Hg.
    + split; [done|].
      intros (_ & _ & _ & kv' & result' & [= <-] & _ & Hr' & _).
      by rewrite Hres in Hr'.
  - split; [done|].
    intros (_ & _ & _ & kv' & result' & [= <-] & Hs & _).
    rewrite Hs in Hst. simpl in Hst. done.
Qed.

(** X13: one call of [download_contract_source] either stops on the
    missing key before anything happens, or sends exactly one request, for
    the address as given, and every path it then touches is the contract
    directory (named after the contract and the lower-case address) joined
    with one name.  When the fetch gives no record, nothing follows the
    request. *)
Theorem download_contract_source_events
    (address : string) (chainid : Z) (outdir : path) (apikey : string)
    (save_abi save_metadata : bool) (inc exc : option (gset string)) :
  let run := download_contract_source json_loads json_dumps requests_get repr
               address chainid outdir apikey save_abi save_metadata inc exc in
  run = (Raise ConfigError, [])
  ∨ ∃ evs2,
      run.2 = HttpGet (_API_URL_TMPL chainid address apikey) :: evs2
      ∧ match (fetch_source requests_get address chainid apikey).1 with
        | Ok (JDict kv) =>
            Forall (file_event_in (contract_dir repr outdir kv (lower address))) evs2
        | _ => evs2 = []
        end.
Proof.
  intros run. subst run. unfold download_contract_source.
  destruct (fetch_source_events requests_get address chainid apikey) as [H| ->];
    [right|by left].
  destruct (fetch_source requests_get address chainid apikey) as [[r|e] evs1].
  2:{ simpl in *. subst evs1. by exists []. }
  simpl in H. subst evs1.
  destruct r as [| | | | |kv]; try (by exists []).
  cbn [lift py_get mbind M_bind mret fst snd]. simpl.
  fold (contract_dir repr outdir kv (lower address)).
  pose proof (write_sources_in json_loads json_dumps repr (JDict kv)
                (contract_dir repr outdir kv (lower address))
                save_abi save_metadata inc exc) as Hw.
  destruct (write_sources _ _ _ _ _ _ _ _ _) as [rw evs2]. simpl in *.
  by exists evs2.
Qed.

(** X14: every path a call of the recursive downloader creates, writes or
    reports is the output directory it was given joined with further
    names, at every depth of the recursion.  (The names are the operands of
    [/] as the code passes them; what [pathlib] makes of an absolute name
    is outside the path model.) *)
Theorem download_recursive_under_outdir
    (chainid : Z) (apikey : string) (save_abi save_metadata : bool)
    (inc exc : option (gset string)) (fuel : nat) (address : string)
    (outdir : path) (_visited : option (gset string))
    (r : res unit) (visited' : gset string) (evs : trace) :
  download_contract_source_recursive json_loads json_dumps requests_get repr
    fuel address chainid outdir apikey save_abi save_metadata inc exc _visited
  = Done r visited' evs →
  Forall (event_under outdir) evs.
Proof.
  assert (∀ visited, download_contract_source_recursive json_loads json_dumps
            requests_get repr fuel address chainid outdir apikey save_abi
            save_metadata inc exc (Some visited) = Done r visited' evs →
          Forall (event_under outdir) evs) as Hsome.
  2:{ destruct _visited as [visited|]; [apply Hsome|].
      rewrite download_recursive_None. apply Hsome. }
  revert address outdir r visited' evs.
  induction fuel as [|fuel IH]; intros address outdir r visited' evs visited;
    [done|].
  destruct (decide (lower address ∈ visited)) as [Hin|Hnew].
  { rewrite download_recursive_skips_visited_eq by done.
    intros [= <- <- <-]. by repeat constructor. }
  rewrite download_recursive_unfold by done. cbv zeta.
  assert (Forall (event_under outdir)
            (fetch_source requests_get (lower address) chainid apikey).2) as Hf.
  { destruct (fetch_source_events requests_get (lower address) chainid apikey)
      as [-> | ->]; by repeat constructor. }
  destruct (fetch_source requests_get (lower address) chainid apikey)
    as [[result|e] evs1]; simpl in Hf.
  2:{ intros [= <- <- <-]. by constructor. }
  destruct result as [| | | | |kv]; try (intros [= <- <- <-]; by constructor).
  pose proof (write_sources_in json_loads json_dumps repr (JDict kv)
                (contract_dir repr outdir kv (lower (lower address)))
                save_abi save_metadata inc exc) as Hw.
  assert (outdir `prefix_of` contract_dir repr outdir kv (lower (lower address)))
    as Hdir by apply prefix_app_r, reflexivity.
  eapply Forall_impl in Hw; [|intros e; apply (file_event_under outdir), Hdir].
  destruct (write_sources _ _ _ _ _ _ _ _ _) as [[[]|e] evs2]; simpl in Hw.
  2:{ intros [= <- <- <-]. constructor; [done|]. by apply Forall_app. }
  destruct (py_lower _) as [implementation|e].
  2:{ intros [= <- <- <-]. constructor; [done|]. by apply Forall_app. }
  destruct (_ && _ && _).
  2:{ intros [= <- <- <-]. constructor; [done|]. by apply Forall_app. }
  destruct (download_contract_source_recursive _ _ _ _ fuel _ _ _ _ _ _ _ _ _)
    as [|r' v' evs'] eqn:Hrec; [done|].
  apply IH in Hrec. simpl. intros [= <- <- <-].
  constructor; [done|]. rewrite !Forall_app. repeat split; try done.
  - by repeat constructor.
  - eapply Forall_impl; [exact Hrec|]. intros e. apply event_under_weaken.
    apply prefix_app_r, Hdir.
Qed.

(** X15: a call that ends leaves a visited set that holds all it held
    before and the lower-case address of the call. *)
Theorem download_recursive_visited_grows
    (chainid : Z) (apikey : string) (save_abi save_metadata : bool)
    (inc exc : option (gset string)) (fuel : nat) (address : string)
    (outdir : path) (_visited : option (gset string))
    (r : res unit) (visited' : gset string) (evs : trace) :
  download_contract_source_recursive json_loads json_dumps requests_get repr
    fuel address chainid outdir apikey save_abi save_metadata inc exc _visited
  = Done r visited' evs →
  default ∅ _visited ⊆ visited' ∧ lower address ∈ visited'.
Proof.
  assert (∀ visited, download_contract_source_recursive json_loads json_dumps
            requests_get repr fuel address chainid outdir apikey save_abi
            save_metadata inc exc (Some visited) = Done r visited' evs →
          visited ⊆ visited' ∧ lower address ∈ visited') as Hsome.
  2:{ destruct _visited as [visited|]; [apply Hsome|].
      rewrite download_recursive_None. apply Hsome. }
  revert address outdir r visited' evs.
  induction fuel as [|fuel IH]; intros address outdir r visited' evs visited;
    [done|].
  destruct (decide (lower address ∈ visited)) as [Hin|Hnew].
  { rewrite download_recursive_skips_visited_eq by done.
    by intros [= <- <- <-]. }
  rewrite download_recursive_unfold by done. cbv zeta.
  destruct (fetch_source requests_get (lower address) chainid apikey)
    as [[result|e] evs1].
  2:{ intros [= <- <- <-]. set_solver. }
  destruct result as [| | | | |kv]; try (intros [= <- <- <-]; set_solver).
  destruct (write_sources _ _ _ _ _ _ _ _ _) as [[[]|e] evs2].
  2:{ intros [= <- <- <-]. set_solver. }
  destruct (py_lower _) as [implementation|e].
  2:{ intros [= <- <- <-]. set_solver. }
  destruct (_ && _ && _).
  2:{ intros [= <- <- <-]. set_solver. }
  destruct (download_contract_source_recursive _ _ _ _ fuel _ _ _ _ _ _ _ _ _)
    as [|r' v' evs'] eqn:Hrec; [done|].
  apply IH in Hrec as [Hsub _]. simpl. intros [= <- <- <-]. set_solver.
Qed.

(** X16: the recursive downloader does not look at the case of the
    address: two spellings with the same lower-case form give the same
    outcome, requests and paths included. *)
Theorem download_recursive_case_insensitive
    (fuel : nat) (a1 a2 : string) (chainid : Z) (outdir : path) (apikey : string)
    (save_abi save_metadata : bool) (inc exc : option (gset string))
    (_visited : option (gset string)) :
  lower a1 = lower a2 →
  download_contract_source_recursive json_loads json_dumps requests_get repr
    fuel a1 chainid outdir apikey save_abi save_metadata inc exc _visited
  = download_contract_source_recursive json_loads json_dumps requests_get repr
      fuel a2 chainid outdir apikey save_abi save_metadata inc exc _visited.
Proof.
  intros H.
  rewrite <- (download_recursive_lower _ _ _ _ _ a1).
  rewrite <- (download_recursive_lower _ _ _ _ _ a2).
  by rewrite H.
Qed.

(** X17: on a contract whose record names no implementation to follow
    and whose implementation field, when present, is a text, the recursive
    downloader started afresh does what [download_contract_source] does
    on the lower-case address, after its progress line, and leaves that
    address as the only visited one. *)
Theorem download_recursive_plain_contract
    (fuel : nat) (address : string) (chainid : Z) (outdir : path)
    (apikey : string) (save_abi save_metadata : bool)
    (inc exc : option (gset string)) :
  (∀ kv evs1,
     fetch_source requests_get (lower address) chainid apikey = (Ok (JDict kv), evs1) →
     (¬ ∃ impl, proxy_target kv impl)
     ∧ ∃ s, default (JStr "") (dict_get kv "Implementation") = JStr s) →
  download_contract_source_recursive json_loads json_dumps requests_get repr
    (S fuel) address chainid outdir apikey save_abi save_metadata inc exc None
  = let run := download_contract_source json_loads json_dumps requests_get repr
                 (lower address) chainid outdir apikey save_abi save_metadata
                 inc exc in
    Done run.1 {[lower address]}
         (Print ("[=] Downloading contract " +:+ lower address
                 +:+ " (chain " +:+ pretty chainid +:+ ")") :: run.2).
Proof.
  intros Hplain. rewrite download_recursive_None.
  rewrite download_recursive_unfold by apply not_elem_of_empty. cbv zeta.
  unfold download_contract_source. rewrite (left_id_L ∅ (∪)).
  destruct (fetch_source requests_get (lower address) chainid apikey)
    as [[result|e] evs1] eqn:Hf; [|done].
  destruct result as [| | | | |kv]; try (simpl; by rewrite app_nil_r).
  destruct (Hplain kv evs1 eq_refl) as (Hno & s & Hs).
  cbn [lift py_get mbind M_bind mret fst snd]. simpl.
  fold (contract_dir repr outdir kv (lower (lower address))).
  pose proof (proxy_target_test kv) as Ht. rewrite Hs in Ht |- *. simpl in Ht |- *.
  destruct (write_sources _ _ _ _ _ _ _ _ _) as [[[]|e] evs2]; simpl;
    rewrite ?app_nil_r; [|done].
  destruct (_ && _ && _); [|done]. destruct Hno. eauto.
Qed.

End MoreDownloader.

(** ** The key sets of the command line *)

#[local] Arguments String.append !_ _ / : simpl nomatch.

Lemma split_comma_comma_free s :
  Forall (λ k, comma_free k = true) (Cli.split_comma s).
Proof.
  induction s as [|c s IH]; simpl; [by repeat constructor|].
  destruct (Ascii.eqb c ",") eqn:Hc; [by constructor|].
  destruct (Cli.split_comma s) as [|piece pieces]; simpl.
  - repeat constructor. simpl. by rewrite Hc.
  - inversion_clear IH as [|? ? Hp Hps]. constructor; [|done].
    simpl. by rewrite Hc, Hp.
Qed.

Lemma comma_free_lstrip s : comma_free s = true → comma_free (lstrip s) = true.
Proof.
  induction s as [|c s IH]; simpl; [done|].
  intros [Hc Hs]%andb_true_iff. destruct (isspace c); [by apply IH|].
  simpl. by rewrite Hc, Hs.
Qed.

Lemma comma_free_rstrip s : comma_free s = true → comma_free (rstrip s) = true.
Proof.
  induction s as [|c s IH]; simpl; [done|].
  intros [Hc Hs]%andb_true_iff. specialize (IH Hs).
  destruct (rstrip s) as [|d r].
  - destruct (isspace c); simpl; [done|]. by rewrite Hc.
  - simpl in *. by rewrite Hc, IH.
Qed.

Lemma split_comma_single k : comma_free k = true → Cli.split_comma k = [k].
Proof.
  induction k as [|c k IH]; simpl; [done|].
  intros [Hc Hk]%andb_true_iff. apply negb_true_iff in Hc. rewrite Hc.
  by rewrite IH.
Qed.

Lemma split_comma_app k rest :
  comma_free k = true →
  Cli.split_comma (k +:+ "," +:+ rest) = k :: Cli.split_comma rest.
Proof.
  induction k as [|c k IH]; simpl; [done|].
  intros [Hc Hk]%andb_true_iff. apply negb_true_iff in Hc. rewrite Hc.
  simpl in IH. by rewrite IH.
Qed.

Lemma split_comma_concat keys :
  keys ≠ [] →
  Forall (λ k, comma_free k = true) keys →
  Cli.split_comma (String.concat "," keys) = keys.
Proof.
  induction keys as [|k keys IH]; [done|]. intros _ Hall.
  inversion_clear Hall as [|? ? Hk Hks].
  destruct keys as [|k' keys].
  - simpl. by apply split_comma_single.
  - change (String.concat "," (k :: k' :: keys))
      with (k +:+ "," +:+ String.concat "," (k' :: keys)).
    rewrite split_comma_app by done. f_equal. by apply IH.
Qed.

(** X18: every key [_cli] hands to the filter is a non-empty text
    without comma and without blanks at either end. *)
Theorem cli_key_set_members (s k : string) :
  k ∈ Cli.key_set s →
  k ≠ "" ∧ strip k = k ∧ comma_free k = true.
Proof.
  unfold Cli.key_set. rewrite elem_of_list_to_set, list_elem_of_In, in_map_iff.
  intros (piece & <- & Hin). apply list_elem_of_In in Hin.
  apply list_elem_of_filter in Hin as [Hfull Hpiece].
  split; [|split].
  - intros Hempty. by rewrite Hempty in Hfull.
  - apply strip_idemp.
  - pose proof (split_comma_comma_free s) as Hall.
    rewrite Forall_forall in Hall. specialize (Hall _ Hpiece).
    by apply comma_free_rstrip, comma_free_lstrip.
Qed.

(** X19: keys written without blanks and joined with commas come back
    as they are: for non-empty keys without comma and without blanks at
    either end, the set [_cli] builds from their comma-separated list is
    the set of these keys. *)
Theorem cli_key_set_round_trip (keys : list string) :
  Forall (λ k, k ≠ "" ∧ strip k = k ∧ comma_free k = true) keys →
  Cli.key_set (String.concat "," keys) = list_to_set keys.
Proof.
  intros Hall. unfold Cli.key_set.
  destruct keys as [|k0 keys0]; [done|].
  rewrite split_comma_concat; [|done|].
  2:{ eapply Forall_impl; [exact Hall|]. by intros k (_ & _ & ?). }
  f_equal. generalize dependent (k0 :: keys0). clear.
  intros keys Hall. induction Hall as [|k keys (Hne & Hs & _) _ IH]; [done|].
  rewrite filter_cons. rewrite Hs.
  rewrite decide_True by by apply truthy_str.
  simpl. by rewrite Hs, IH.
Qed.

(** X20: an include option whose argument is not empty but holds only
    commas and blanks gives the empty key set, not the absence of a
    filter, so the metadata written under it is the empty object. *)
Theorem cli_blank_keys_keep_nothing
    (s : string) (kv : list (string * json)) (exc : option (gset string)) :
  s ≠ "" →
  Forall (λ k, isblank k = true) (Cli.split_comma s) →
  Cli.cli_keys (Some s) = Some ∅
  ∧ filter_metadata kv (Cli.cli_keys (Some s)) exc = [].
Proof.
  intros Hs Hblank.
  assert (Cli.cli_keys (Some s) = Some ∅) as ->.
  { unfold Cli.cli_keys, Cli.key_set. rewrite truthy_str by done. f_equal.
    induction Hblank as [|k ks Hk _ IH]; [done|].
    assert (strip k = "") as Hstrip.
    { unfold strip. by rewrite (isblank_lstrip k). }
    rewrite filter_cons, Hstrip.
    rewrite decide_False by (vm_compute; discriminate). exact IH. }
  split; [done|]. simpl.
  induction kv as [|item kv IH]; [done|].
  rewrite filter_cons. by rewrite decide_False by set_solver.
Qed.

(** X21: with the key as the file ships it (empty) or left at the
    placeholder, [_cli] exits with the configuration error whatever the
    arguments: no request is sent and no file is touched; in the recursive
    mode the progress line has been printed by then. *)
Theorem cli_unconfigured_key
    (json_loads : string → loads_result) (json_dumps : json → string)
    (requests_get : string → http_reply) (repr : json → string)
    (API_KEY : string) (fuel : nat) (args : Cli.Namespace) :
  API_KEY = Cli.API_KEY_shipped ∨ API_KEY = "YOUR_ETHERSCAN_V2_API_KEY" →
  Cli._cli json_loads json_dumps requests_get repr API_KEY (S fuel) args
  = Cli.CliExit ConfigError
      (if Cli.recursive args
       then [Print ("[=] Downloading contract " +:+ lower (Cli.address args)
                    +:+ " (chain " +:+ pretty (Cli.chainid args) +:+ ")")]
       else []).
Proof.
  intros Hkey.
  assert (∀ a, fetch_source requests_get a (Cli.chainid args) API_KEY
               = (Raise ConfigError, [])) as Hf.
  { intros a. unfold fetch_source. by destruct Hkey as [-> | ->]. }
  unfold Cli._cli. destruct (Cli.recursive args).
  - rewrite download_recursive_None.
    rewrite download_recursive_unfold by apply not_elem_of_empty. cbv zeta.
    by rewrite Hf.
  - unfold download_contract_source. by rewrite Hf.
Qed.

(** X22: [_cli] ends.  When the addresses reachable from the one given
    form a finite proxy graph, a recursion depth above the size of the
    graph is enough for the recursive mode to return or to exit; the
    plain mode needs none. *)
Theorem cli_ends
    (json_loads : string → loads_result) (json_dumps : json → string)
    (requests_get : string → http_reply) (repr : json → string)
    (API_KEY : string) (U : gset string) (fuel : nat) (args : Cli.Namespace) :
  proxy_graph requests_get (Cli.chainid args) API_KEY U →
  lower (Cli.address args) ∈ U →
  size U < fuel →
  Cli._cli json_loads json_dumps requests_get repr API_KEY fuel args
  ≠ Cli.CliOutOfFuel.
Proof.
  intros Hgraph Hin Hfuel. unfold Cli._cli. destruct (Cli.recursive args).
  - rewrite download_recursive_None.
    destruct (download_recursive_total json_loads json_dumps requests_get repr
                U (Cli.chainid args) API_KEY (Cli.download_abi args)
                (Cli.download_metadata args)
                (Cli.cli_keys (Cli.include_metadata_keys args))
                (Cli.cli_keys (Cli.exclude_metadata_keys args))
                Hgraph fuel (Cli.address args) [Cli.outdir args] ∅ Hin)
      as (r & visited' & evs & new & -> & _).
    + by rewrite difference_empty_L.
    + by destruct r.
  - by destruct (download_contract_source _ _ _ _ _ _ _ _ _ _ _ _) as [[[]|e] evs].
Qed.

(** X23: the directory and the file are named by different rules.  For
    a single-file record whose contract name is the empty text, the
    directory is named with the empty name (a hyphen and the address) while
    the file is named [Contract.sol]. *)
Theorem download_contract_source_empty_name
    (json_loads : string → loads_result) (json_dumps : json → string)
    (requests_get : string → http_reply) (repr : json → string)
    (address : string) (chainid : Z) (outdir : path) (apikey : string)
    (inc exc : option (gset string))
    (kv : list (string * json)) (evs1 : trace) (blob : string) :
  fetch_source requests_get address chainid apikey = (Ok (JDict kv), evs1) →
  dict_get kv "ContractName" = Some (JStr "") →
  dict_get kv "SourceCode" = Some (JStr blob) →
  is_single_file_contract blob = true →
  download_contract_source json_loads json_dumps requests_get repr
    address chainid outdir apikey false false inc exc
  = (Ok tt,
     evs1 ++ file_events (pjoin (pjoin outdir ("-" +:+ lower address)) "Contract.sol")
                         blob).
Proof.
  intros Hf Hname Hsrc Hsingle. unfold download_contract_source. rewrite Hf.
  cbn [lift py_get mbind M_bind mret fst snd]. rewrite Hname. simpl.
  rewrite (write_sources_with_source _ _ _ _ _ _ _ _ _ _ Hsrc
             (single_file_nonempty _ Hsingle)).
  rewrite Hsingle. unfold side_files, py_get. rewrite Hname. simpl.
  reflexivity.
Qed.

(** ** Examples of the further properties *)

Lemma parse_blank_padding_witness :
  is_single_file_contract ("  " +:+ Sample.bundleB)
  = is_single_file_contract Sample.bundleB
  ∧ _parse_source_code_object JsonText.json_loads ("  " +:+ Sample.bundleB +:+ " ")
    = _parse_source_code_object JsonText.json_loads Sample.bundleB.
Proof.
  apply (parse_blank_padding JsonText.json_loads "  " Sample.bundleB " ");
    reflexivity.
Defined.

Lemma parse_sources_key_witness :
  _parse_source_code_object JsonText.json_loads Sample.bundleB
  = Ok (JDict [("contracts/Logic.sol", JDict [("content", JStr "contract Logic {}")]);
               ("", JDict [("content", JStr "library L {}")])]).
Proof.
  apply (parse_sources_key JsonText.json_loads Sample.bundleB
           [("language", JStr "Solidity");
            ("sources",
             JDict [("contracts/Logic.sol", JDict [("content", JStr "contract Logic {}")]);
                    ("", JDict [("content", JStr "library L {}")])])]).
  - vm_compute. reflexivity.
  - reflexivity.
Defined.

Lemma sources_to_map_forms_agree_witness :
  _sources_to_map
    (JList (map (λ item, JList [JStr item.1; item.2])
                [("A.sol", JStr "contract A {}");
                 ("B.sol", JDict [("content", JStr "contract B {}")])]))
  = _sources_to_map
      (JDict [("A.sol", JStr "contract A {}");
              ("B.sol", JDict [("content", JStr "contract B {}")])]).
Proof.
  apply sources_to_map_forms_agree.
  - apply NoDup_cons. split; [|apply NoDup_singleton].
    intros Hin. apply list_elem_of_In in Hin. simpl in Hin.
    destruct Hin as [Hin|[]]. discriminate Hin.
  - intros k m Hin. apply list_elem_of_In in Hin. simpl in Hin.
    destruct Hin as [Hin|[Hin|[]]]; [discriminate Hin|].
    injection Hin as _ <-. eexists. reflexivity.
Defined.

Lemma sources_to_map_list_distinct_witness :
  _sources_to_map (JList [JList [JStr "A.sol"; JStr "contract A {}"];
                          JList [JStr "B.sol"; JStr "contract B {}"];
                          JList [JStr "A.sol"; JStr "contract A2 {}"]])
  = Ok [(JStr "A.sol", JStr "contract A2 {}"); (JStr "B.sol", JStr "contract B {}")]
  ∧ key_eqb (JStr "A.sol") (JStr "B.sol") = false.
Proof.
  split; [reflexivity|].
  apply (sources_to_map_list_distinct
           [JList [JStr "A.sol"; JStr "contract A {}"];
            JList [JStr "B.sol"; JStr "contract B {}"];
            JList [JStr "A.sol"; JStr "contract A2 {}"]]
           [(JStr "A.sol", JStr "contract A2 {}"); (JStr "B.sol", JStr "contract B {}")]
           0 1 (JStr "A.sol", JStr "contract A2 {}")
           (JStr "B.sol", JStr "contract B {}")).
  - reflexivity.
  - lia.
  - reflexivity.
  - reflexivity.
Defined.

Lemma sources_to_map_list_last_wins_witness :
  items_get [(JStr "A.sol", JStr "contract A2 {}"); (JStr "B.sol", JStr "contract B {}")]
            (JStr "A.sol")
  = Some (content_of (JStr "contract A2 {}")).
Proof.
  apply (sources_to_map_list_last_wins
           [JList [JStr "A.sol"; JStr "contract A {}"];
            JList [JStr "B.sol"; JStr "contract B {}"]]).
  reflexivity.
Defined.

Lemma write_sources_bundle_error_witness :
  write_sources JsonText.json_loads JsonText.json_encode Sample.py_repr
    (JDict [("SourceCode", JStr "5"); ("ABI", JStr "[]")]) ["out"] true true None None
  = (Raise BundleShapeError, []).
Proof.
  apply (write_sources_bundle_error _ _ _ _ "5").
  - reflexivity.
  - discriminate.
  - reflexivity.
  - vm_compute. reflexivity.
Defined.

Lemma write_sources_stops_at_bad_content_witness :
  write_sources JsonText.json_loads JsonText.json_encode Sample.py_repr
    (JDict [("SourceCode", JStr Sample.bad_blob)]) ["out"] true true None None
  = (Raise (Builtin TypeError),
     List.concat
       (imap (λ k item,
                let p := pjoin ["out"] (entry_name (S k) item.1) in
                [MkdirParents p; WriteText p item.2; Shown p])
             [(Some "A.sol", "contract A {}")])
     ++ [MkdirParents (pjoin ["out"] "B.sol")]).
Proof.
  apply (write_sources_stops_at_bad_content _ _ _ _ Sample.bad_blob
           (JDict [("A.sol", JStr "contract A {}"); ("B.sol", JInt 7);
                   ("C.sol", JStr "contract C {}")])
           [(Some "A.sol", "contract A {}")] "B.sol" (JInt 7)
           [(JStr "C.sol", JStr "contract C {}")]).
  - reflexivity.
  - vm_compute. discriminate.
  - vm_compute. reflexivity.
  - vm_compute. reflexivity.
  - reflexivity.
  - discriminate.
  - discriminate.
Defined.

Lemma write_sources_all_files_witness :
  write_sources JsonText.json_loads JsonText.json_encode Sample.py_repr
    (JDict Sample.recordA) ["out"] true true None (Some {["SourceCode"]})
  = (Ok tt,
     file_events (pjoin ["out"] ("Proxy" +:+ ".sol"))
                 "pragma solidity ^0.8.0; contract Proxy {}"
     ++ file_events (pjoin ["out"] "abi.json") "[]"
     ++ file_events (pjoin ["out"] "contract_metadata.json")
          (JsonText.json_encode
             (JDict (filter_metadata Sample.recordA None (Some {["SourceCode"]}))))).
Proof.
  apply write_sources_all_files.
  - reflexivity.
  - reflexivity.
  - left. split; [reflexivity|discriminate].
  - left. reflexivity.
Defined.

Lemma download_recursive_under_outdir_witness :
  ∃ r visited' evs,
    download_contract_source_recursive
      JsonText.json_loads JsonText.json_encode Sample.cycle_api Sample.py_repr
      3 Sample.addrA 1 ["out"] Sample.KEY true true None None None
    = Done r visited' evs
    ∧ Forall (event_under ["out"]) evs.
Proof.
  destruct (download_contract_source_recursive
              JsonText.json_loads JsonText.json_encode Sample.cycle_api
              Sample.py_repr 3 Sample.addrA 1 ["out"] Sample.KEY true true
              None None None) as [|r visited' evs] eqn:Hrun.
  - vm_compute in Hrun. discriminate Hrun.
  - exists r, visited', evs. split; [reflexivity|].
    exact (download_recursive_under_outdir _ _ _ _ _ _ _ _ _ _ _ _ _ _ _ _ _ Hrun).
Defined.

Lemma download_recursive_visited_grows_witness :
  ∃ r visited' evs,
    download_contract_source_recursive
      JsonText.json_loads JsonText.json_encode Sample.cycle_api Sample.py_repr
      3 Sample.addrA 1 ["out"] Sample.KEY false false None None
      (Some {[lower Sample.addrB]})
    = Done r visited' evs
    ∧ default ∅ (Some {[lower Sample.addrB]}) ⊆ visited'
    ∧ lower Sample.addrA ∈ visited'.
Proof.
  destruct (download_contract_source_recursive
              JsonText.json_loads JsonText.json_encode Sample.cycle_api
              Sample.py_repr 3 Sample.addrA 1 ["out"] Sample.KEY false false
              None None (Some {[lower Sample.addrB]})) as [|r visited' evs] eqn:Hrun.
  - vm_compute in Hrun. discriminate Hrun.
  - exists r, visited', evs. split; [reflexivity|].
    exact (download_recursive_visited_grows _ _ _ _ _ _ _ _ _ _ _ _ _ _ _ _ _ Hrun).
Defined.

Lemma download_recursive_case_insensitive_witness :
  download_contract_source_recursive
    JsonText.json_loads JsonText.json_encode Sample.cycle_api Sample.py_repr
    3 Sample.addrA 1 ["out"] Sample.KEY true false None None None
  = download_contract_source_recursive
      JsonText.json_loads JsonText.json_encode Sample.cycle_api Sample.py_repr
      3 (lower Sample.addrA) 1 ["out"] Sample.KEY true false None None None.
Proof.
  apply download_recursive_case_insensitive. vm_compute. reflexivity.
Defined.

Lemma download_recursive_plain_contract_witness :
  download_contract_source_recursive
    JsonText.json_loads JsonText.json_encode Sample.plain_api Sample.py_repr
    1 Sample.addrC 8453 ["out"] Sample.KEY true true None None None
  = let run := download_contract_source
                 JsonText.json_loads JsonText.json_encode Sample.plain_api
                 Sample.py_repr (lower Sample.addrC) 8453 ["out"] Sample.KEY
                 true true None None in
    Done run.1 {[lower Sample.addrC]}
         (Print ("[=] Downloading contract " +:+ lower Sample.addrC
                 +:+ " (chain " +:+ pretty 8453%Z +:+ ")") :: run.2).
Proof.
  apply download_recursive_plain_contract.
  intros kv evs1 Hf. vm_compute in Hf. injection Hf as <- _. split.
  - intros [impl [Hp _]]. vm_compute in Hp. discriminate Hp.
  - exists "". reflexivity.
Defined.

Lemma cli_key_set_members_witness :
  "ABI" ≠ "" ∧ strip "ABI" = "ABI" ∧ comma_free "ABI" = true.
Proof.
  apply (cli_key_set_members " SourceCode , ABI,,").
  apply elem_of_list_to_set, list_elem_of_In. vm_compute. right. left. reflexivity.
Defined.

Lemma cli_key_set_round_trip_witness :
  Cli.key_set (String.concat "," ["SourceCode"; "ABI"; "Proxy"])
  = list_to_set ["SourceCode"; "ABI"; "Proxy"].
Proof.
  apply cli_key_set_round_trip.
  repeat constructor; try discriminate.
Defined.

Lemma cli_blank_keys_keep_nothing_witness :
  Cli.cli_keys (Some " , ,") = Some ∅
  ∧ filter_metadata Sample.recordA (Cli.cli_keys (Some " , ,")) None = [].
Proof.
  apply cli_blank_keys_keep_nothing.
  - discriminate.
  - vm_compute. repeat constructor.
Defined.

Lemma cli_unconfigured_key_witness :
  Cli._cli JsonText.json_loads JsonText.json_encode Sample.cycle_api Sample.py_repr
           Cli.API_KEY_shipped 1 Sample.argsA
  = Cli.CliExit ConfigError
      (if Cli.recursive Sample.argsA
       then [Print ("[=] Downloading contract " +:+ lower (Cli.address Sample.argsA)
                    +:+ " (chain " +:+ pretty (Cli.chainid Sample.argsA) +:+ ")")]
       else []).
Proof.
  apply cli_unconfigured_key. left. reflexivity.
Defined.

Lemma cli_ends_witness :
  Cli._cli JsonText.json_loads JsonText.json_encode Sample.cycle_api Sample.py_repr
           Sample.KEY 3 Sample.argsA
  ≠ Cli.CliOutOfFuel.
Proof.
  apply (cli_ends _ _ _ _ _ {[lower Sample.addrA; lower Sample.addrB]}).
  - exact cycle_api_graph.
  - apply elem_of_union_l, elem_of_singleton. reflexivity.
  - vm_compute. lia.
Defined.

Lemma download_contract_source_empty_name_witness :
  download_contract_source
    JsonText.json_loads JsonText.json_encode
    (λ _, Sample.envelope
            (JDict [("SourceCode", JStr "// nameless"); ("ContractName", JStr "")]))
    Sample.py_repr Sample.addrC 8453 ["out"] Sample.KEY false false None None
  = (Ok tt,
     [HttpGet (_API_URL_TMPL 8453 Sample.addrC Sample.KEY)]
     ++ file_events (pjoin (pjoin ["out"] ("-" +:+ lower Sample.addrC)) "Contract.sol")
                    "// nameless").
Proof.
  apply (download_contract_source_empty_name _ _ _ _ _ _ _ _ _ _
           [("SourceCode", JStr "// nameless"); ("ContractName", JStr "")]).
  - reflexivity.
  - reflexivity.
  - reflexivity.
  - reflexivity.
Defined.
